(** * clone-all: a shallow embedding of [github_org_puller.py]

    The script lists the repositories of a GitHub organization page by
    page, filters them on their [fork] and [archived] flags, and clones
    the survivors one after the other with [git clone].

    The embedding follows the source function by function.  Everything
    the script does to the outside (HTTP requests, child processes, the
    file system, the terminal) goes through an interface [OS] of
    operations on an abstract world; every call and every line written to
    standard output is appended to a trace, so that statements such as
    "no child process was started" are statements about the trace. *)

From Stdlib Require Import String Ascii List ZArith Lia.
From Stdlib Require Import DecimalString DecimalZ DecimalPos.
From stdpp Require Import gmap strings list.

Local Open Scope string_scope.

(* ===================================================================== *)
(** * Python strings                                                      *)
(* ===================================================================== *)

(** A Python [str] is modelled by the [string] of the bytes of its UTF-8
    encoding, which is also what a string literal of this file holds.
    Comparing, concatenating and searching texts are the same operations
    on their encodings. *)

Definition nl : string := String (ascii_of_nat 10) "".

(** A line of output: the text and the line feed [print] adds. *)
Definition line (msg : string) : string := msg +:+ nl.

(** [str(n)] for a non-negative [int]. *)
Definition str_of_nat (n : nat) : string :=
  NilZero.string_of_uint (Nat.to_uint n).

(** [str(z)] for an [int]. *)
Definition str_of_Z (z : Z) : string :=
  NilZero.string_of_int (Z.to_int z).

(** ['=' * n] *)
Fixpoint str_repeat (c : ascii) (n : nat) : string :=
  match n with
  | O => ""
  | S n' => String c (str_repeat c n')
  end.

(** [s.startswith(p)] *)
Definition startswith (s p : string) : bool := String.prefix p s.

(** [s.endswith("/")] or any one-character suffix. *)
Fixpoint ends_with_char (s : string) (c : ascii) : bool :=
  match s with
  | "" => false
  | String a "" => Ascii.eqb a c
  | String _ s' => ends_with_char s' c
  end.

(** [sub in s] *)
Fixpoint contains (sub s : string) : bool :=
  String.prefix sub s ||
  match s with
  | "" => false
  | String _ s' => contains sub s'
  end.


(** ** White space

    [str.isspace] holds of the characters U+0009 to U+000D, U+001C to
    U+0020, U+0085, U+00A0, U+1680, U+2000 to U+200A, U+2028, U+2029,
    U+202F, U+205F and U+3000, and [str.strip()] removes exactly these.
    On the UTF-8 encoding they are the single bytes 9 to 13 and 28 to 32
    and the sequences C2 85, C2 A0, E1 9A 80, E2 80 80 to E2 80 8A,
    E2 80 A8, E2 80 A9, E2 80 AF, E2 81 9F and E3 80 80.  In UTF-8 no
    character's encoding occurs inside that of another one, so removing
    these sequences from the two ends of the encoding removes the
    characters from the two ends of the text. *)

(** The white-space characters of one byte: U+0009 to U+000D and U+001C
    to U+0020. *)
Definition ascii_space (c : ascii) : bool :=
  let n := nat_of_ascii c in
  ((9 <=? n)%nat && (n <=? 13)%nat) || ((28 <=? n)%nat && (n <=? 32)%nat).

(** Is the white-space character U+2000 to U+200A, U+2028, U+2029 or
    U+202F encoded by E2 80 followed by this byte? *)
Definition space_after_e2_80 (n : nat) : bool :=
  ((128 <=? n)%nat && (n <=? 138)%nat)
  || (n =? 168)%nat || (n =? 169)%nat || (n =? 175)%nat.

(** The number of bytes of the white-space character at the start of [s],
    and 0 if [s] does not start with one. *)
Definition space_width (s : string) : nat :=
  match s with
  | "" => 0
  | String c rest =>
      if ascii_space c then 1
      else
        match nat_of_ascii c, rest with
        | 194, String d _ =>
            let n := nat_of_ascii d in
            if (n =? 133)%nat || (n =? 160)%nat then 2 else 0
        | 225, String d (String e _) =>
            if (nat_of_ascii d =? 154)%nat && (nat_of_ascii e =? 128)%nat
            then 3 else 0
        | 226, String d (String e _) =>
            let n := nat_of_ascii d in
            if (n =? 128)%nat && space_after_e2_80 (nat_of_ascii e) then 3
            else if (n =? 129)%nat && (nat_of_ascii e =? 159)%nat then 3
            else 0
        | 227, String d (String e _) =>
            if (nat_of_ascii d =? 128)%nat && (nat_of_ascii e =? 128)%nat
            then 3 else 0
        | _, _ => 0
        end
  end.

(** [drop] is the number of bytes still to be dropped of the white-space
    character being removed. *)
Fixpoint lstrip_from (s : string) (drop : nat) : string :=
  match s with
  | "" => ""
  | String _ s' =>
      match drop with
      | S k => lstrip_from s' k
      | O =>
          match space_width s with
          | O => s
          | S k => lstrip_from s' k
          end
      end
  end.

(** [s.lstrip()] *)
Definition lstrip (s : string) : string := lstrip_from s 0.

(** Does [s], after [drop] more bytes, consist of white space only? *)
Fixpoint all_space (s : string) (drop : nat) : bool :=
  match s with
  | "" => (drop =? 0)%nat
  | String _ s' =>
      match drop with
      | S k => all_space s' k
      | O =>
          match space_width s with
          | O => false
          | S k => all_space s' k
          end
      end
  end.

(** [s.rstrip()]: the text up to the point from which only white space
    follows. *)
Fixpoint rstrip (s : string) : string :=
  match s with
  | "" => ""
  | String c s' => if all_space s 0 then "" else String c (rstrip s')
  end.

(** [s.strip()] *)
Definition strip (s : string) : string := rstrip (lstrip s).

Definition lower_char (c : ascii) : ascii :=
  let n := nat_of_ascii c in
  if (65 <=? n)%nat && (n <=? 90)%nat then ascii_of_nat (n + 32) else c.

(** [s.lower()] on the letters of the ASCII range; the bytes of other
    characters are kept.  The script compares the result with ["y"]
    only, and [Y] is the one character besides [y] itself that
    [str.lower] turns into [y]. *)
Fixpoint lower (s : string) : string :=
  match s with
  | "" => ""
  | String c s' => String (lower_char c) (lower s')
  end.

(** [os.path.join(a, b)] of [posixpath], for two components: an absolute
    [b] replaces [a]; an empty [a], or one that already ends in the
    separator, is followed by [b] directly. *)
Definition os_path_join (a b : string) : string :=
  if startswith b "/" then b
  else if String.eqb a "" || ends_with_char a "/"%char then a +:+ b
  else a +:+ "/" +:+ b.

(* ===================================================================== *)
(** * Data                                                                *)
(* ===================================================================== *)

(** One element of the JSON array the listing endpoint returns, with the
    keys the script reads. *)
Record repo := mk_repo {
  name : string;
  clone_url : string;
  ssh_url : string;
  fork : bool;
  archived : bool
}.

(** The [params] dictionary of a listing request. *)
Record query := mk_query {
  q_page : nat;
  q_per_page : nat;
  q_type : string;
  q_sort : string;
  q_direction : string
}.

(** A [session.get]: the URL, the query and [session.headers] at the
    time of the call.  The headers are keyed by their lower-cased names,
    which is how the case-insensitive dictionary of the session tells
    them apart. *)
Record request := mk_request {
  req_url : string;
  req_params : query;
  req_headers : gmap string string
}.

(** The arguments of a [subprocess.run] call that vary in the script
    ([capture_output] and [text] are always [True]).  [timeout] is in
    seconds; [env = None] inherits the parent's environment. *)
Record spawn := mk_spawn {
  argv : list string;
  timeout : option nat;
  env : option (gmap string string)
}.

(** A [subprocess.CompletedProcess]. *)
Record completed := mk_completed {
  returncode : Z;
  stdout : string;
  stderr : string
}.

(** Exceptions derived from [Exception] that the script raises itself or
    tells apart in an [except] clause; [OtherError] stands for any other
    subclass.  The argument is [str(e)]. *)
Inductive error :=
| ValueError (msg : string)
| FileNotFoundError (msg : string)
| TimeoutExpired (msg : string)
| OtherError (msg : string).

Definition str_of_error (e : error) : string :=
  match e with
  | ValueError m | FileNotFoundError m | TimeoutExpired m | OtherError m => m
  end.

(** The result of a library call: a value or an exception. *)
Inductive result (A : Type) :=
| Ok (a : A)
| Err (e : error).
Arguments Ok {A} a.
Arguments Err {A} e.

(** What the script reads of a [requests.Response]: the status, the body
    as text, and what [response.json()] gives, the parsed array of
    repositories or the exception of the parser when the body is not
    JSON. *)
Record response := mk_response {
  status_code : Z;
  json : result (list repo);
  text : string
}.

(** What the program does to the outside, in order. *)
Inductive event :=
| EvGet (r : request)          (* session.get *)
| EvSleep (ms : nat)           (* time.sleep, in milliseconds *)
| EvRun (c : spawn)            (* subprocess.run *)
| EvMakedirs (path : string)   (* os.makedirs(path, exist_ok=True) *)
| EvReadline                   (* the line read by input() *)
| EvWrite (s : string).        (* text written to standard output *)

(** The outside world.  Each operation takes the current world and gives
    back its answer and the world after the call.
    [requests_default_headers] are the headers a new [requests.Session]
    starts with (user agent, accepted encodings and so on), which depend
    on the installed library. *)
Class OS (W : Type) := {
  requests_default_headers : gmap string string;
  session_get : W -> request -> result response * W;
  time_sleep : W -> nat -> W;
  subprocess_run : W -> spawn -> result completed * W;
  os_path_exists : W -> string -> bool;
  os_path_abspath : W -> string -> string;
  os_makedirs : W -> string -> result unit * W;
  stdin_readline : W -> result string * W
}.

(* ===================================================================== *)
(** * The monad of the program                                            *)
(* ===================================================================== *)

(** How a piece of the program ends: with a value, with an exception
    that an [except Exception] clause can catch, with [sys.exit], or not
    at all within the given number of loop iterations. *)
Inductive outcome (A : Type) :=
| Ret (a : A)
| Raise (e : error)
| Exit (code : Z)
| OutOfFuel.
Arguments Ret {A} a.
Arguments Raise {A} e.
Arguments Exit {A} code.
Arguments OutOfFuel {A}.

Section Program.

Context {W : Type} `{OS W}.

(** The state of a run: the world, [os.environ], and what happened so
    far. *)
Record state := mk_state {
  world : W;
  environ : gmap string string;
  trace : list event
}.

Definition M (A : Type) : Type := state -> outcome A * state.

Definition ret {A} (a : A) : M A := fun s => (Ret a, s).

Definition bind {A B} (m : M A) (f : A -> M B) : M B :=
  fun s =>
    match m s with
    | (Ret a, s') => f a s'
    | (Raise e, s') => (Raise e, s')
    | (Exit c, s') => (Exit c, s')
    | (OutOfFuel, s') => (OutOfFuel, s')
    end.

Definition raise {A} (e : error) : M A := fun s => (Raise e, s).

(** [sys.exit(code)] *)
Definition sys_exit {A} (code : Z) : M A := fun s => (Exit code, s).

Definition out_of_fuel {A} : M A := fun s => (OutOfFuel, s).

(** [try: m  except Exception as e: h e].  [SystemExit] is not an
    [Exception] and passes through. *)
Definition try_except {A} (m : M A) (h : error -> M A) : M A :=
  fun s =>
    match m s with
    | (Raise e, s') => h e s'
    | r => r
    end.

Definition log (e : event) (s : state) : state :=
  {| world := world s; environ := environ s; trace := trace s ++ [e] |}.

Definition emit (e : event) : M unit := fun s => (Ret tt, log e s).

(** A call into the outside world, recorded as [e]. *)
Definition call {A} (op : W -> result A * W) (e : event) : M A :=
  fun s =>
    let '(r, w') := op (world s) in
    let s' := {| world := w'; environ := environ s;
                 trace := trace s ++ [e] |} in
    match r with
    | Ok a => (Ret a, s')
    | Err x => (Raise x, s')
    end.

(** The result of a call that changes nothing outside. *)
Definition of_result {A} (r : result A) : M A :=
  match r with
  | Ok a => ret a
  | Err e => raise e
  end.

(** [time.sleep], in milliseconds. *)
Definition sleep (ms : nat) : M unit :=
  fun s => (Ret tt, {| world := time_sleep (world s) ms; environ := environ s;
                       trace := trace s ++ [EvSleep ms] |}).

Definition get_environ : M (gmap string string) :=
  fun s => (Ret (environ s), s).

Definition get_world : M W := fun s => (Ret (world s), s).

End Program.

Arguments state : clear implicits.
Arguments M : clear implicits.

Declare Scope py_scope.
Delimit Scope py_scope with py.
Notation "x <- m ;; k" := (bind m (fun x => k))
  (at level 100, m at next level, right associativity) : py_scope.
Notation "m ;; k" := (bind m (fun _ => k))
  (at level 100, right associativity) : py_scope.

Local Open Scope py_scope.

(* ===================================================================== *)
(** * The program                                                         *)
(* ===================================================================== *)

Section Puller.

Context {W : Type} `{OS W}.

(** Computations of the program over the world [W]. *)
Local Abbreviation Py := (M W).

(** [print(msg)] *)
Definition print (msg : string) : Py unit := emit (EvWrite (line msg)).

(** [print(msg, end=e)] *)
Definition print_end (msg e : string) : Py unit := emit (EvWrite (msg +:+ e)).

(** [input(prompt)] *)
Definition input (prompt : string) : Py string :=
  emit (EvWrite prompt) ;;
  call stdin_readline EvReadline.

(** [subprocess.run(argv, capture_output=True, text=True, ...)] *)
Definition run (c : spawn) : Py completed :=
  call (fun w => subprocess_run w c) (EvRun c).

(** The object of class [GitHubOrgPuller]: [session.headers], keyed by
    the lower-cased names of the headers. *)
Record GitHubOrgPuller := mk_puller {
  session_headers : gmap string string
}.

(** Python truth of an optional string: [None] and [""] are false. *)
Definition truthy (o : option string) : bool :=
  match o with
  | Some s => negb (String.eqb s "")
  | None => false
  end.

(** [GitHubOrgPuller.__init__]: a new session, whose headers are updated
    with [Authorization] and [Accept], or with [Accept] alone. *)
Definition init (token : option string) : Py GitHubOrgPuller :=
  match token with
  | Some t =>
      if truthy token then
        ret {| session_headers :=
                 <["accept" := "application/vnd.github.v3+json"]>
                   (<["authorization" := "token " +:+ t]>
                      requests_default_headers) |}
      else
        print "Warning: No GitHub token provided. API rate limits will be lower." ;;
        ret {| session_headers :=
                 <["accept" := "application/vnd.github.v3+json"]>
                   requests_default_headers |}
  | None =>
      print "Warning: No GitHub token provided. API rate limits will be lower." ;;
      ret {| session_headers :=
               <["accept" := "application/vnd.github.v3+json"]>
                 requests_default_headers |}
  end.

(** [GitHubOrgPuller.check_ssh_agent] *)
Definition check_ssh_agent : Py bool :=
  try_except
    (result <- run {| argv := ["ssh-add"; "-l"]; timeout := None; env := None |} ;;
     if (returncode result =? 0)%Z then
       print "✅ SSH agent is running with loaded keys" ;;
       ret true
     else
       print "⚠️  SSH agent is running but no keys are loaded" ;;
       print "   Run: ssh-add ~/.ssh/id_ed25519" ;;
       ret false)
    (fun e =>
       match e with
       | FileNotFoundError _ =>
           print "⚠️  SSH agent not found" ;;
           ret false
       | _ =>
           print "⚠️  Could not check SSH agent status" ;;
           ret false
       end).

(** ** Listing *)

Definition per_page : nat := 100.

(** The request for one page of the organization's repositories. *)
Definition list_request (self : GitHubOrgPuller) (org_name : string)
    (page : nat) : request :=
  {| req_url := "https://api.github.com/orgs/" +:+ org_name +:+ "/repos";
     req_params := {| q_page := page; q_per_page := per_page;
                      q_type := "all"; q_sort := "updated";
                      q_direction := "desc" |};
     req_headers := session_headers self |}.

(** The messages of the three [ValueError]s of the listing. *)
Definition msg_not_found (org_name : string) : string :=
  "Organization '" +:+ org_name +:+ "' not found or not accessible".

Definition msg_rate_limit : string :=
  "API rate limit exceeded or insufficient permissions".

Definition msg_api_error (status : Z) (body : string) : string :=
  "GitHub API error: " +:+ str_of_Z status +:+ " - " +:+ body.

(** What the listing does with the status of a response: nothing for
    200, a [ValueError] for everything else. *)
Definition check_status (org_name : string) (r : response) : Py unit :=
  if (status_code r =? 404)%Z then
    raise (ValueError (msg_not_found org_name))
  else if (status_code r =? 403)%Z then
    raise (ValueError msg_rate_limit)
  else if negb (status_code r =? 200)%Z then
    raise (ValueError (msg_api_error (status_code r) (text r)))
  else ret tt.

(** The [while True] loop of [get_all_repos]; [fuel] bounds the number of
    iterations, [page] and [repos] are the loop's variables. *)
Fixpoint get_all_repos_loop (fuel : nat) (self : GitHubOrgPuller)
    (org_name : string) (page : nat) (repos : list repo) : Py (list repo) :=
  match fuel with
  | O => out_of_fuel
  | S fuel' =>
      let rq := list_request self org_name page in
      print ("Fetching page " +:+ str_of_nat page +:+ "...") ;;
      response <- call (fun w => session_get w rq) (EvGet rq) ;;
      check_status org_name response ;;
      page_repos <- of_result (json response) ;;
      match page_repos with
      | [] => ret repos
      | _ :: _ =>
          let repos := (repos ++ page_repos)%list in
          print ("Found " +:+ str_of_nat (length page_repos) +:+
                 " repositories on page " +:+ str_of_nat page) ;;
          if (length page_repos <? per_page)%nat then ret repos
          else
            sleep 100 ;;
            get_all_repos_loop fuel' self org_name (S page) repos
      end
  end.

(** [GitHubOrgPuller.get_all_repos] *)
Definition get_all_repos (self : GitHubOrgPuller) (org_name : string)
    (fuel : nat) : Py (list repo) :=
  print ("Fetching repositories for organization: " +:+ org_name) ;;
  repos <- get_all_repos_loop fuel self org_name 1 [] ;;
  print ("Total repositories found: " +:+ str_of_nat (length repos)) ;;
  ret repos.

(** ** Cloning *)

Definition git_ssh_command : string :=
  "ssh -o StrictHostKeyChecking=no -o BatchMode=yes".

(** The environment handed to [git]: a copy of [os.environ], with
    [GIT_SSH_COMMAND] set when cloning over SSH. *)
Definition clone_env (use_ssh : bool) (parent : gmap string string)
    : gmap string string :=
  if use_ssh then <["GIT_SSH_COMMAND" := git_ssh_command]> parent else parent.

(** The [subprocess.run] call of [clone_repo]. *)
Definition clone_spawn (url path : string) (child_env : gmap string string)
    : spawn :=
  {| argv := ["git"; "clone"; url; path];
     timeout := Some 300%nat;
     env := Some child_env |}.

(** [GitHubOrgPuller.clone_repo] *)
Definition clone_repo (r : repo) (target_dir : string) (use_ssh : bool)
    : Py bool :=
  let repo_name := name r in
  let url := if use_ssh then ssh_url r else clone_url r in
  let repo_path := os_path_join target_dir repo_name in
  w <- get_world ;;
  if os_path_exists w repo_path then
    print ("⚠️  " +:+ repo_name +:+ " already exists, skipping...") ;;
    ret true
  else
    print ("📦 Cloning " +:+ repo_name +:+ "...") ;;
    try_except
      (parent <- get_environ ;;
       result <- run (clone_spawn url repo_path (clone_env use_ssh parent)) ;;
       if (returncode result =? 0)%Z then
         print ("✅ Successfully cloned " +:+ repo_name) ;;
         ret true
       else
         let error_msg := strip (stderr result) in
         (if contains "Permission denied" error_msg && use_ssh then
            print ("❌ SSH authentication failed for " +:+ repo_name +:+
                   ". Make sure ssh-agent is running and key is added.") ;;
            print "   Try: ssh-add ~/.ssh/id_ed25519"
          else
            print ("❌ Failed to clone " +:+ repo_name +:+ ": " +:+ error_msg)) ;;
         ret false)
      (fun e =>
         match e with
         | TimeoutExpired _ =>
             print ("❌ Timeout while cloning " +:+ repo_name) ;;
             ret false
         | FileNotFoundError _ =>
             print "❌ Git is not installed or not in PATH" ;;
             ret false
         | _ =>
             print ("❌ Error cloning " +:+ repo_name +:+ ": " +:+
                    str_of_error e) ;;
             ret false
         end).

(** ** The run *)

(** The filtering loop of [pull_all_repos]; [filtered_repos] is the list
    being built. *)
Fixpoint filter_loop (include_forks include_archived : bool)
    (repos filtered_repos : list repo) : Py (list repo) :=
  match repos with
  | [] => ret filtered_repos
  | r :: rest =>
      if negb include_forks && fork r then
        print ("Skipping fork: " +:+ name r) ;;
        filter_loop include_forks include_archived rest filtered_repos
      else if negb include_archived && archived r then
        print ("Skipping archived repo: " +:+ name r) ;;
        filter_loop include_forks include_archived rest filtered_repos
      else
        filter_loop include_forks include_archived rest
          (filtered_repos ++ [r])%list
  end.

(** The cloning loop of [pull_all_repos]: [i] is the position announced
    for the next repository, [total] is [len(filtered_repos)]. *)
Fixpoint clone_loop (target_dir : string) (use_ssh : bool) (total i : nat)
    (repos : list repo) (successful failed : nat) : Py (nat * nat) :=
  match repos with
  | [] => ret (successful, failed)
  | r :: rest =>
      print_end (nl +:+ "[" +:+ str_of_nat i +:+ "/" +:+ str_of_nat total +:+ "] ") "" ;;
      ok <- clone_repo r target_dir use_ssh ;;
      if ok then clone_loop target_dir use_ssh total (S i) rest (S successful) failed
      else clone_loop target_dir use_ssh total (S i) rest successful (S failed)
  end.

(** The summary printed after the cloning loop. *)
Definition print_summary (total successful failed : nat) : Py unit :=
  print (nl +:+ str_repeat "=" 50) ;;
  print "SUMMARY" ;;
  print (str_repeat "=" 50) ;;
  print ("Total repositories: " +:+ str_of_nat total) ;;
  print ("Successfully cloned: " +:+ str_of_nat successful) ;;
  print ("Failed: " +:+ str_of_nat failed) ;;
  if (0 <? failed)%nat then
    print (nl +:+ "⚠️  " +:+ str_of_nat failed +:+
           " repositories failed to clone. Check the output above for details.")
  else
    print (nl +:+ "🎉 All repositories cloned successfully!").

(** The first part of [pull_all_repos], up to the [try] statement: the
    target directory is fixed and created and, over SSH, the agent is
    probed.  The result is the target directory, or [None] where the
    function returns early because the user declined to continue. *)
Definition pull_prelude (self : GitHubOrgPuller) (org_name : string)
    (target_dir : option string) (use_ssh : bool) : Py (option string) :=
  let target_dir := match target_dir with
                    | None => org_name
                    | Some d => d
                    end in
  call (fun w => os_makedirs w target_dir) (EvMakedirs target_dir) ;;
  w <- get_world ;;
  print ("Cloning repositories to: " +:+ os_path_abspath w target_dir) ;;
  if use_ssh then
    print (nl +:+ "Checking SSH configuration...") ;;
    agent <- check_ssh_agent ;;
    if negb agent then
      print "Warning: SSH issues detected. Consider using HTTPS instead or fix SSH setup." ;;
      response <- input "Continue anyway? (y/n): " ;;
      let response := lower (strip response) in
      if negb (String.eqb response "y") then ret None
      else ret (Some target_dir)
    else ret (Some target_dir)
  else ret (Some target_dir).

(** The [try] statement of [pull_all_repos]: list, filter, clone, sum
    up; any exception is printed and turned into [sys.exit(1)]. *)
Definition pull_try (self : GitHubOrgPuller) (org_name target_dir : string)
    (use_ssh include_forks include_archived : bool) (fuel : nat) : Py unit :=
  try_except
    (repos <- get_all_repos self org_name fuel ;;
     filtered_repos <- filter_loop include_forks include_archived repos [] ;;
     print (nl +:+ "Will clone " +:+ str_of_nat (length filtered_repos) +:+
            " repositories") ;;
     counts <- clone_loop target_dir use_ssh (length filtered_repos) 1
                 filtered_repos 0 0 ;;
     print_summary (length filtered_repos) (fst counts) (snd counts))
    (fun e =>
       print ("❌ Error: " +:+ str_of_error e) ;;
       sys_exit 1).

(** [GitHubOrgPuller.pull_all_repos] *)
Definition pull_all_repos (self : GitHubOrgPuller) (org_name : string)
    (target_dir : option string)
    (use_ssh include_forks include_archived : bool) (fuel : nat) : Py unit :=
  go <- pull_prelude self org_name target_dir use_ssh ;;
  match go with
  | None => ret tt
  | Some target_dir =>
      pull_try self org_name target_dir use_ssh include_forks
        include_archived fuel
  end.

(** The parsed command line. *)
Record args := mk_args {
  organization : string;
  token : option string;
  arg_target_dir : option string;
  ssh : bool;
  no_forks : bool;
  no_archived : bool
}.

(** [main], after [parser.parse_args()]. *)
Definition main (a : args) (fuel : nat) : Py unit :=
  e <- get_environ ;;
  let token := if truthy (token a) then token a else e !! "GITHUB_TOKEN" in
  puller <- init token ;;
  pull_all_repos puller (organization a) (arg_target_dir a) (ssh a)
    (negb (no_forks a)) (negb (no_archived a)) fuel.

End Puller.

(** The exit status of the process for each way [main] can end: 0 when it
    returns, the argument of [sys.exit], 1 for an exception nobody
    caught; a run that does not end has none. *)
Definition exit_status {A} (o : outcome A) : option Z :=
  match o with
  | Ret _ => Some 0%Z
  | Raise _ => Some 1%Z
  | Exit c => Some c
  | OutOfFuel => None
  end.

(* ===================================================================== *)
(** * Reading a trace                                                     *)
(* ===================================================================== *)

(** The listing requests of a trace, in order. *)
Definition requests (t : list event) : list request :=
  flat_map (fun e => match e with EvGet r => [r] | _ => [] end) t.

(** The child processes of a trace, in order. *)
Definition spawns (t : list event) : list spawn :=
  flat_map (fun e => match e with EvRun c => [c] | _ => [] end) t.

(** The text pieces written to standard output, in order. *)
Definition written (t : list event) : list string :=
  flat_map (fun e => match e with EvWrite s => [s] | _ => [] end) t.

(** Is this child process a [git clone]? *)
Definition is_git_clone (c : spawn) : bool :=
  match argv c with
  | prog :: sub :: _ => String.eqb prog "git" && String.eqb sub "clone"
  | _ => false
  end.

(** The [git clone] invocations of a trace. *)
Definition clone_invocations (t : list event) : list spawn :=
  List.filter is_git_clone (spawns t).

(** The three lines of the summary that carry the counts. *)
Definition summary_lines (total successful failed : nat) : list string :=
  [ line ("Total repositories: " +:+ str_of_nat total);
    line ("Successfully cloned: " +:+ str_of_nat successful);
    line ("Failed: " +:+ str_of_nat failed) ].

(** Which repositories the filter keeps. *)
Definition keep (include_forks include_archived : bool) (r : repo) : bool :=
  negb (negb include_forks && fork r) &&
  negb (negb include_archived && archived r).

(* ===================================================================== *)
(** * A scripted world                                                    *)
(* ===================================================================== *)

(** A world in the manner of the test suite, which replaces
    [session.get], [os.path.exists] and [subprocess.run] by canned
    answers: the responses are handed out in order, the paths in
    [existing] exist, every child process is answered by [child]. *)
Module Mock.

Record script := mk_script {
  responses : list (result response);
  existing : list string;
  child : spawn -> result completed;
  stdin : list string
}.

(** The headers of a new session of [requests] 2.31. *)
Definition library_headers : gmap string string :=
  <["user-agent" := "python-requests/2.31.0"]>
    (<["accept-encoding" := "gzip, deflate"]>
       (<["accept" := "*/*"]> (<["connection" := "keep-alive"]> ∅))).

#[export] Instance mock_os : OS script := {|
  requests_default_headers := library_headers;
  session_get w _ :=
    match responses w with
    | [] => (Err (OtherError "pop from empty list"), w)
    | r :: rest =>
        (r, {| responses := rest; existing := existing w;
               child := child w; stdin := stdin w |})
    end;
  time_sleep w _ := w;
  subprocess_run w c := (child w c, w);
  os_path_exists w p := existsb (String.eqb p) (existing w);
  os_path_abspath w p := os_path_join "/work" p;
  os_makedirs w p :=
    (Ok tt, {| responses := responses w; existing := p :: existing w;
               child := child w; stdin := stdin w |});
  stdin_readline w :=
    match stdin w with
    | [] => (Err (OtherError "EOF when reading a line"), w)
    | l :: rest =>
        (Ok l, {| responses := responses w; existing := existing w;
                  child := child w; stdin := rest |})
    end
|}.

(** A child process that ends with the given status and error text. *)
Definition exits (code : Z) (err : string) : spawn -> result completed :=
  fun _ => Ok {| returncode := code; stdout := ""; stderr := err |}.

(** No such program. *)
Definition missing : spawn -> result completed :=
  fun _ => Err (FileNotFoundError "[Errno 2] No such file or directory: 'git'").

(** The program runs into its timeout. *)
Definition hangs : spawn -> result completed :=
  fun _ => Err (TimeoutExpired "timed out after 300 seconds").

Definition ok200 (page : list repo) : result response :=
  Ok {| status_code := 200; json := Ok page; text := "" |}.

Definition status (code : Z) (body : string) : result response :=
  Ok {| status_code := code; json := Ok []; text := body |}.

(** The start of a run in the world [w], with [PATH] and [HOME] set. *)
Definition start (w : script) : state script :=
  {| world := w;
     environ := <["PATH" := "/usr/bin"]> (<["HOME" := "/home/u"]> ∅);
     trace := [] |}.

End Mock.

(** A scripted world on a read-only disk: as [Mock], but no directory can
    be created. *)
Module ReadOnly.

Import Mock.

Inductive disk := Disk (w : Mock.script).

Definition inner (d : disk) : Mock.script :=
  match d with
  | Disk w => w
  end.

#[export] Instance readonly_os : OS disk := {|
  requests_default_headers := library_headers;
  session_get d rq :=
    let '(r, w') := session_get (inner d) rq in (r, Disk w');
  time_sleep d ms := Disk (time_sleep (inner d) ms);
  subprocess_run d c :=
    let '(r, w') := subprocess_run (inner d) c in (r, Disk w');
  os_path_exists d p := os_path_exists (inner d) p;
  os_path_abspath d p := os_path_abspath (inner d) p;
  os_makedirs d p :=
    (Err (OtherError ("[Errno 13] Permission denied: '" +:+ p +:+ "'")), d);
  stdin_readline d :=
    let '(r, w') := stdin_readline (inner d) in (r, Disk w')
|}.

Definition start (d : disk) : state disk :=
  {| world := d; environ := ∅; trace := [] |}.

End ReadOnly.

(* ===================================================================== *)
(** * Specification-side definitions                                      *)
(* ===================================================================== *)

Local Open Scope list_scope.

Section Specs.

Context {W : Type} `{OS W}.

(** [serves self org n w pages w']: asked for the pages [n], [n+1], ...
    of [org] one after the other, with the pause the script makes between
    two requests, the world [w] answers 200 with the pages [pages] and
    ends up as [w']. *)
Inductive serves (self : GitHubOrgPuller) (org_name : string)
    : nat -> W -> list (list repo) -> W -> Prop :=
| serves_last n w pg body w' :
    session_get w (list_request self org_name n)
      = (Ok {| status_code := 200; json := Ok pg; text := body |}, w') ->
    serves self org_name n w [pg] w'
| serves_more n w pg body w1 pgs w' :
    session_get w (list_request self org_name n)
      = (Ok {| status_code := 200; json := Ok pg; text := body |}, w1) ->
    serves self org_name (S n) (time_sleep w1 100) pgs w' ->
    serves self org_name n w (pg :: pgs) w'.

(** The sum of the lengths of the pages. *)
Definition total_length (pages : list (list repo)) : nat :=
  list_sum (map (@length repo) pages).

(** What [clone_repo] returns and prints once [git] has been started and
    has come back with [res]. *)
Definition clone_verdict (r : repo) (use_ssh : bool) (res : result completed)
    : bool * list string :=
  match res with
  | Ok c =>
      if (returncode c =? 0)%Z then
        (true, [line ("✅ Successfully cloned " +:+ name r)])
      else if contains "Permission denied" (strip (stderr c)) && use_ssh then
        (false,
         [line ("❌ SSH authentication failed for " +:+ name r +:+
                ". Make sure ssh-agent is running and key is added.");
          line "   Try: ssh-add ~/.ssh/id_ed25519"])
      else
        (false,
         [line ("❌ Failed to clone " +:+ name r +:+ ": " +:+ strip (stderr c))])
  | Err (TimeoutExpired _) =>
      (false, [line ("❌ Timeout while cloning " +:+ name r)])
  | Err (FileNotFoundError _) =>
      (false, [line "❌ Git is not installed or not in PATH"])
  | Err e =>
      (false,
       [line ("❌ Error cloning " +:+ name r +:+ ": " +:+ str_of_error e)])
  end.

(** The URL [clone_repo] clones from. *)
Definition selected_url (r : repo) (use_ssh : bool) : string :=
  if use_ssh then ssh_url r else clone_url r.

(** The state after some more text has been written. *)
Definition wrote (lines : list string) (s : state W) : state W :=
  {| world := world s; environ := environ s;
     trace := trace s ++ map EvWrite lines |}.

(** The state after page [page] has been requested and the world has
    become [w']. *)
Definition fetched (self : GitHubOrgPuller) (org_name : string) (page : nat)
    (w' : W) (s : state W) : state W :=
  {| world := w'; environ := environ s;
     trace := trace s
              ++ [EvWrite (line ("Fetching page " +:+ str_of_nat page +:+ "..."));
                  EvGet (list_request self org_name page)] |}.

(** The state after the pause between two requests. *)
Definition slept (s : state W) : state W :=
  {| world := time_sleep (world s) 100; environ := environ s;
     trace := trace s ++ [EvSleep 100] |}.

(** The token [main] hands to the constructor: the one of the command
    line if it has one, the variable [GITHUB_TOKEN] otherwise. *)
Definition chosen_token (a : args) (s : state W) : option string :=
  if truthy (token a) then token a else environ s !! "GITHUB_TOKEN".

(** The repositories that survive the filtering of a run with the
    command line [a]. *)
Definition surviving (a : args) (repos : list repo) : list repo :=
  List.filter (keep (negb (no_forks a)) (negb (no_archived a))) repos.

(** How often [b] occurs among the results of the clone attempts. *)
Definition tally (b : bool) (results : list bool) : nat :=
  length (List.filter (Bool.eqb b) results).

(** ** Further readings of a run *)

(** The probe of the SSH agent. *)
Definition probe : spawn :=
  {| argv := ["ssh-add"; "-l"]; timeout := None; env := None |}.

(** Did the probe find an agent with keys? *)
Definition probe_ok (res : result completed) : bool :=
  match res with
  | Ok c => (returncode c =? 0)%Z
  | Err _ => false
  end.

(** The directory a run clones into. *)
Definition default_dir (org_name : string) (target_dir : option string)
    : string :=
  match target_dir with
  | None => org_name
  | Some d => d
  end.

(** The command line of the [git clone] for a repository. *)
Definition clone_argv (target_dir : string) (use_ssh : bool) (r : repo)
    : list string :=
  ["git"; "clone"; selected_url r use_ssh; os_path_join target_dir (name r)].

(** The headers of a session with and without a token. *)
Definition plain_headers : gmap string string :=
  <["accept" := "application/vnd.github.v3+json"]> requests_default_headers.

Definition token_headers (t : string) : gmap string string :=
  <["accept" := "application/vnd.github.v3+json"]>
    (<["authorization" := "token " +:+ t]> requests_default_headers).

(** The requests and pauses of a trace, in order. *)
Definition net_events (t : list event) : list event :=
  List.filter (fun e => match e with
                        | EvGet _ | EvSleep _ => true
                        | _ => false
                        end) t.

(** The number of lines read from standard input. *)
Definition reads (t : list event) : nat :=
  length (List.filter (fun e => match e with
                                | EvReadline => true
                                | _ => false
                                end) t).

(** The directories created, in order. *)
Definition made_dirs (t : list event) : list string :=
  flat_map (fun e => match e with EvMakedirs d => [d] | _ => [] end) t.

(** The requests for the pages [n], ..., [n + k], with a pause of 100 ms
    between two of them. *)
Fixpoint paced (self : GitHubOrgPuller) (org_name : string) (n k : nat)
    : list event :=
  match k with
  | O => [EvGet (list_request self org_name n)]
  | S k' =>
      EvGet (list_request self org_name n) :: EvSleep 100
      :: paced self org_name (S n) k'
  end.

(** The events a listing may produce: output, pauses of 100 ms and
    requests for pages of the organization. *)
Definition listing_event (self : GitHubOrgPuller) (org_name : string)
    (e : event) : Prop :=
  match e with
  | EvWrite _ => True
  | EvSleep ms => ms = 100
  | EvGet rq => exists page, rq = list_request self org_name page
  | _ => False
  end.

(** [s'] continues [s], and every event in between satisfies [P]. *)
Definition extends_with (P : event -> Prop) (s s' : state W) : Prop :=
  exists evs, trace s' = trace s ++ evs /\ Forall P evs.

(** [serves_full self org n w pages w']: asked for the pages [n],
    [n+1], ..., each followed by the pause of the script, the world [w]
    answers 200 with the pages [pages] and ends up as [w']. *)
Inductive serves_full (self : GitHubOrgPuller) (org_name : string)
    : nat -> W -> list (list repo) -> W -> Prop :=
| serves_full_nil n w : serves_full self org_name n w [] w
| serves_full_cons n w pg body w1 pgs w' :
    session_get w (list_request self org_name n)
      = (Ok {| status_code := 200; json := Ok pg; text := body |}, w1) ->
    serves_full self org_name (S n) (time_sleep w1 100) pgs w' ->
    serves_full self org_name n w (pg :: pgs) w'.

End Specs.

(** Concrete runs: the repositories and pages of the examples of the
    specification, and scripted worlds for them. *)
Module Examples.

Import Mock.

Definition repo1 : repo :=
  {| name := "repo1"; clone_url := "https://github.com/org/repo1.git";
     ssh_url := "git@github.com:org/repo1.git";
     fork := false; archived := false |}.

Definition repo2 : repo :=
  {| name := "repo2"; clone_url := "https://github.com/org/repo2.git";
     ssh_url := "git@github.com:org/repo2.git";
     fork := true; archived := false |}.

Definition repo3 : repo :=
  {| name := "repo3"; clone_url := "https://github.com/org/repo3.git";
     ssh_url := "git@github.com:org/repo3.git";
     fork := false; archived := true |}.

(** A puller built without a token. *)
Definition anonymous : GitHubOrgPuller :=
  {| session_headers :=
       <["accept" := "application/vnd.github.v3+json"]> library_headers |}.

(** A page of [n] repositories. *)
Definition page_of (n : nat) : list repo := repeat repo1 n.

Definition scripted (rs : list (result response)) (paths : list string)
    (c : spawn -> result completed) : script :=
  {| responses := rs; existing := paths; child := c; stdin := [] |}.

(** Pages of 100, 100 and 37 repositories. *)
Definition w_237 : script :=
  scripted [ok200 (page_of 100); ok200 (page_of 100); ok200 (page_of 37)]
    [] (exits 0 "").

(** Pages of 100, 100, 100 and 0 repositories. *)
Definition w_300 : script :=
  scripted [ok200 (page_of 100); ok200 (page_of 100); ok200 (page_of 100);
            ok200 []]
    [] (exits 0 "").

(** Every response has been handed out. *)
Definition w_done : script := scripted [] [] (exits 0 "").

(** Three repositories, the second a fork, the third archived; [git]
    succeeds. *)
Definition w_three : script :=
  scripted [ok200 [repo1; repo2; repo3]] [] (exits 0 "").

(** The organization does not exist. *)
Definition w_404 : script := scripted [status 404 "Not Found"] [] (exits 0 "").


(** One repository; there is no [git]. *)
Definition w_missing : script := scripted [ok200 [repo1]] [] missing.

(** One repository; [git] is refused by the server. *)
Definition denied : string := "git@github.com: Permission denied (publickey).".

Definition w_denied : script := scripted [ok200 [repo1]] [] (exits 128 denied).

(** One repository, already cloned into [/tmp]. *)
Definition w_cloned : script :=
  scripted [ok200 [repo1]] ["/tmp/repo1"] (exits 0 "").

(** [prog dummyorg] *)
Definition args_plain : args :=
  {| organization := "dummyorg"; token := None; arg_target_dir := None;
     ssh := false; no_forks := false; no_archived := false |}.

(** [prog dummyorg --no-forks --no-archived] *)
Definition args_filtered : args :=
  {| organization := "dummyorg"; token := None; arg_target_dir := None;
     ssh := false; no_forks := true; no_archived := true |}.

(** The state in which the [try] statement of the run [main a] from [s]
    begins. *)
Definition after_init (a : args) (s : state script) : state script :=
  snd (init (chosen_token a s) s).

Definition after_prelude (a : args) (s : state script) : state script :=
  snd (pull_prelude anonymous (organization a) (arg_target_dir a) (ssh a)
         (after_init a s)).


(** The no-break space U+00A0, in UTF-8. *)
Definition nbsp : string :=
  String (ascii_of_nat 194) (String (ascii_of_nat 160) "").

(** Error output of [git] with white space around it. *)
Definition noisy : string :=
  " " +:+ nbsp +:+ "fatal: repository not found" +:+ nl.

(** One repository; [git] fails with that output. *)
Definition w_noisy : script := scripted [ok200 [repo1]] [] (exits 128 noisy).

(** Two full pages and nothing after them. *)
Definition w_full2 : script :=
  scripted [ok200 (page_of 100); ok200 (page_of 100)] [] (exits 0 "").

(** A full page, then the connection breaks. *)
Definition w_broken : script :=
  scripted [ok200 (page_of 100); Err (OtherError "Connection reset by peer")]
    [] (exits 0 "").

(** An agent without keys: [ssh-add -l] ends with exit code 1, every
    other program with 0. *)
Definition agent_empty : spawn -> result completed :=
  fun c =>
    match argv c with
    | "ssh-add" :: _ =>
        Ok {| returncode := 1; stdout := "The agent has no identities.";
              stderr := "" |}
    | _ => Ok {| returncode := 0; stdout := ""; stderr := "" |}
    end.

(** One repository, no keys in the agent, and the given lines on standard
    input. *)
Definition w_no_keys (answers : list string) : script :=
  {| responses := [ok200 [repo1]]; existing := []; child := agent_empty;
     stdin := answers |}.

(** [prog dummyorg --ssh --token tok] *)
Definition args_ssh : args :=
  {| organization := "dummyorg"; token := Some "tok"; arg_target_dir := None;
     ssh := true; no_forks := false; no_archived := false |}.

(** The world after the target directory [dummyorg] has been created. *)
Definition made (w : script) : script := snd (os_makedirs w "dummyorg").


End Examples.

(* ===================================================================== *)
(** * Proofs                                                              *)
(* ===================================================================== *)

Ltac unfold_py :=
  unfold print, print_end, input, run;
  unfold bind, ret, raise, sys_exit, try_except, emit, log, call, sleep,
    get_world, get_environ.

(** The start of one iteration of the listing loop, up to the answer
    [Hget] of the endpoint. *)
Ltac loop_start Hget :=
  cbn [get_all_repos_loop]; unfold check_status; unfold_py;
  cbn [world environ trace]; rewrite Hget; cbn [status_code json text];
  unfold fetched; rewrite <- ?app_assoc; cbn [app].

(** The status checks of a 200 response. *)
Ltac loop_200 :=
  change (200 =? 404)%Z with false; change (200 =? 403)%Z with false;
  change (200 =? 200)%Z with true; cbn [negb world environ trace of_result];
  unfold ret, raise; cbn [world environ trace].

Section Proofs.

Context {W : Type} `{OS W}.

Local Abbreviation Py := (M W).

(** ** Traces *)

Lemma spawns_app (t u : list event) : spawns (t ++ u) = spawns t ++ spawns u.
Proof. unfold spawns. now rewrite flat_map_app. Qed.

Lemma requests_app (t u : list event) :
  requests (t ++ u) = requests t ++ requests u.
Proof. unfold requests. now rewrite flat_map_app. Qed.

Lemma written_app (t u : list event) : written (t ++ u) = written t ++ written u.
Proof. unfold written. now rewrite flat_map_app. Qed.

Lemma spawns_writes (l : list string) : spawns (map EvWrite l) = [].
Proof. induction l; simpl; auto. Qed.

Lemma requests_writes (l : list string) : requests (map EvWrite l) = [].
Proof. induction l; simpl; auto. Qed.

Lemma written_writes (l : list string) : written (map EvWrite l) = l.
Proof. induction l; simpl; congruence. Qed.

Lemma wrote_nil (s : state W) : wrote [] s = s.
Proof. destruct s; unfold wrote; simpl. now rewrite app_nil_r. Qed.

Lemma wrote_wrote (l1 l2 : list string) (s : state W) :
  wrote l2 (wrote l1 s) = wrote (l1 ++ l2) s.
Proof. unfold wrote; simpl. now rewrite map_app, app_assoc. Qed.

Lemma print_wrote (msg : string) (s : state W) :
  print msg s = (Ret tt, wrote [line msg] s).
Proof. reflexivity. Qed.

(** ** Filtering *)

Lemma filter_loop_spec (f a : bool) (repos acc : list repo) (s : state W) :
  exists lines,
    filter_loop f a repos acc s
      = (Ret (acc ++ List.filter (keep f a) repos), wrote lines s).
Proof.
  revert acc s. induction repos as [|r rest IH]; intros acc s; simpl.
  - exists []. now rewrite app_nil_r, wrote_nil.
  - unfold keep at 1.
    destruct (negb f && fork r) eqn:Ef; simpl.
    + unfold bind at 1. rewrite print_wrote.
      edestruct (IH acc) as [lines ->].
      eexists. now rewrite wrote_wrote.
    + destruct (negb a && archived r) eqn:Ea; simpl.
      * unfold bind at 1. rewrite print_wrote.
        edestruct (IH acc) as [lines ->].
        eexists. now rewrite wrote_wrote.
      * destruct (IH (acc ++ [r]) s) as [lines ->].
        exists lines. now rewrite <- app_assoc.
Qed.

Lemma filter_sublist {A} (p : A -> bool) (l : list A) :
  sublist (List.filter p l) l.
Proof.
  induction l as [|x l IH]; simpl.
  - constructor.
  - destruct (p x); now constructor.
Qed.

Lemma keep_iff (f a : bool) (r : repo) :
  keep f a r = true <->
  ~ (f = false /\ fork r = true) /\ ~ (a = false /\ archived r = true).
Proof.
  unfold keep. destruct f, a, (fork r), (archived r); simpl; intuition congruence.
Qed.

(** ** One clone *)

Lemma clone_repo_exists (r : repo) (td : string) (use_ssh : bool)
    (s : state W) :
  os_path_exists (world s) (os_path_join td (name r)) = true ->
  clone_repo r td use_ssh s
    = (Ret true,
       wrote [line ("⚠️  " +:+ name r +:+ " already exists, skipping...")] s).
Proof.
  intros Hex. unfold clone_repo, bind at 1, get_world. simpl.
  rewrite Hex. reflexivity.
Qed.

(** The state in which [clone_repo] leaves a run that started [git]. *)
Lemma clone_repo_fresh (r : repo) (td : string) (use_ssh : bool)
    (s : state W) (res : result completed) (w' : W) :
  os_path_exists (world s) (os_path_join td (name r)) = false ->
  subprocess_run (world s)
    (clone_spawn (selected_url r use_ssh) (os_path_join td (name r))
       (clone_env use_ssh (environ s))) = (res, w') ->
  clone_repo r td use_ssh s
    = (Ret (fst (clone_verdict r use_ssh res)),
       {| world := w'; environ := environ s;
          trace := trace s
                   ++ [EvWrite (line ("📦 Cloning " +:+ name r +:+ "..."));
                       EvRun (clone_spawn (selected_url r use_ssh)
                                (os_path_join td (name r))
                                (clone_env use_ssh (environ s)))]
                   ++ map EvWrite (snd (clone_verdict r use_ssh res)) |}).
Proof.
  intros Hex Hrun.
  unfold clone_repo, bind at 1, get_world. simpl. rewrite Hex.
  unfold_py. cbn [world environ trace]. fold (selected_url r use_ssh).
  rewrite Hrun.
  destruct res as [c|e]; cbn [clone_verdict fst snd].
  - destruct (returncode c =? 0)%Z; cbn [world environ trace fst snd map].
    + now rewrite <- !app_assoc.
    + destruct (contains "Permission denied" (strip (stderr c)) && use_ssh);
        cbn [world environ trace fst snd map]; now rewrite <- !app_assoc.
  - destruct e; cbn [world environ trace fst snd map];
      now rewrite <- !app_assoc.
Qed.

(** [clone_repo] always returns: every exception of the child process is
    caught. *)
Lemma clone_repo_returns (r : repo) (td : string) (use_ssh : bool)
    (s : state W) :
  exists b s', clone_repo r td use_ssh s = (Ret b, s').
Proof.
  destruct (os_path_exists (world s) (os_path_join td (name r))) eqn:Hex.
  - rewrite clone_repo_exists by assumption. eauto.
  - destruct (subprocess_run (world s)
                (clone_spawn (selected_url r use_ssh)
                   (os_path_join td (name r))
                   (clone_env use_ssh (environ s)))) as [res w'] eqn:Hrun.
    rewrite (clone_repo_fresh _ _ _ _ _ _ Hex Hrun). eauto.
Qed.

(** ** One iteration of the listing loop *)

Lemma loop_raises (self : GitHubOrgPuller) (org : string) (fuel page : nat)
    (acc : list repo) (s : state W) (e : error) (w' : W) :
  session_get (world s) (list_request self org page) = (Err e, w') ->
  get_all_repos_loop (S fuel) self org page acc s
    = (Raise e, fetched self org page w' s).
Proof. intros Hget. loop_start Hget. reflexivity. Qed.

Lemma loop_404 (self : GitHubOrgPuller) (org : string) (fuel page : nat)
    (acc : list repo) (s : state W) (r : response) (w' : W) :
  session_get (world s) (list_request self org page) = (Ok r, w') ->
  status_code r = 404%Z ->
  get_all_repos_loop (S fuel) self org page acc s
    = (Raise (ValueError (msg_not_found org)), fetched self org page w' s).
Proof.
  intros Hget Hst. destruct r as [st js tx]; simpl in Hst; subst st.
  loop_start Hget. reflexivity.
Qed.

Lemma loop_403 (self : GitHubOrgPuller) (org : string) (fuel page : nat)
    (acc : list repo) (s : state W) (r : response) (w' : W) :
  session_get (world s) (list_request self org page) = (Ok r, w') ->
  status_code r = 403%Z ->
  get_all_repos_loop (S fuel) self org page acc s
    = (Raise (ValueError msg_rate_limit), fetched self org page w' s).
Proof.
  intros Hget Hst. destruct r as [st js tx]; simpl in Hst; subst st.
  loop_start Hget. reflexivity.
Qed.

Lemma loop_other_status (self : GitHubOrgPuller) (org : string)
    (fuel page : nat) (acc : list repo) (s : state W) (r : response) (w' : W) :
  session_get (world s) (list_request self org page) = (Ok r, w') ->
  status_code r <> 404%Z -> status_code r <> 403%Z -> status_code r <> 200%Z ->
  get_all_repos_loop (S fuel) self org page acc s
    = (Raise (ValueError (msg_api_error (status_code r) (text r))),
       fetched self org page w' s).
Proof.
  intros Hget H404 H403 H200. destruct r as [st js tx]; simpl in *.
  loop_start Hget.
  destruct (Z.eqb_spec st 404); [contradiction|].
  destruct (Z.eqb_spec st 403); [contradiction|].
  destruct (Z.eqb_spec st 200); [contradiction|].
  reflexivity.
Qed.

Lemma loop_short (self : GitHubOrgPuller) (org : string) (fuel page : nat)
    (acc : list repo) (s : state W) (pg : list repo) (body : string) (w' : W) :
  session_get (world s) (list_request self org page)
    = (Ok {| status_code := 200; json := Ok pg; text := body |}, w') ->
  length pg < per_page ->
  exists lines,
    get_all_repos_loop (S fuel) self org page acc s
      = (Ret (acc ++ pg), wrote lines (fetched self org page w' s)).
Proof.
  intros Hget Hlen. loop_start Hget. loop_200.
  destruct pg as [|r0 pg'].
  - exists []. rewrite app_nil_r. unfold wrote; cbn [map world environ trace].
    now rewrite app_nil_r.
  - apply Nat.ltb_lt in Hlen. rewrite Hlen.
    eexists [_]. unfold wrote; cbn [map world environ trace].
    rewrite <- !app_assoc. reflexivity.
Qed.

Lemma loop_full (self : GitHubOrgPuller) (org : string) (fuel page : nat)
    (acc : list repo) (s : state W) (pg : list repo) (body : string) (w' : W) :
  session_get (world s) (list_request self org page)
    = (Ok {| status_code := 200; json := Ok pg; text := body |}, w') ->
  per_page <= length pg ->
  exists lines,
    get_all_repos_loop (S fuel) self org page acc s
      = get_all_repos_loop fuel self org (S page) (acc ++ pg)
          (slept (wrote lines (fetched self org page w' s))).
Proof.
  intros Hget Hlen. loop_start Hget. loop_200.
  destruct pg as [|r0 pg']; [unfold per_page in Hlen; simpl in Hlen; lia|].
  apply Nat.ltb_ge in Hlen. rewrite Hlen.
  eexists [_]. unfold slept, wrote; cbn [map world environ trace].
  rewrite <- !app_assoc. reflexivity.
Qed.

Lemma loop_bad_json (self : GitHubOrgPuller) (org : string)
    (fuel page : nat) (acc : list repo) (s : state W) (e : error)
    (body : string) (w' : W) :
  session_get (world s) (list_request self org page)
    = (Ok {| status_code := 200; json := Err e; text := body |}, w') ->
  get_all_repos_loop (S fuel) self org page acc s
    = (Raise e, fetched self org page w' s).
Proof. intros Hget. loop_start Hget. loop_200. reflexivity. Qed.

(** ** The whole listing *)

Lemma requests_wrote (l : list string) (s : state W) :
  requests (trace (wrote l s)) = requests (trace s).
Proof.
  unfold wrote; cbn [trace]. now rewrite requests_app, requests_writes, app_nil_r.
Qed.

Lemma spawns_wrote (l : list string) (s : state W) :
  spawns (trace (wrote l s)) = spawns (trace s).
Proof.
  unfold wrote; cbn [trace]. now rewrite spawns_app, spawns_writes, app_nil_r.
Qed.

Lemma requests_fetched (self : GitHubOrgPuller) (org : string) (page : nat)
    (w' : W) (s : state W) :
  requests (trace (fetched self org page w' s))
    = requests (trace s) ++ [list_request self org page].
Proof. unfold fetched; cbn [trace]. now rewrite requests_app. Qed.

Lemma spawns_fetched (self : GitHubOrgPuller) (org : string) (page : nat)
    (w' : W) (s : state W) :
  spawns (trace (fetched self org page w' s)) = spawns (trace s).
Proof.
  unfold fetched; cbn [trace]. rewrite spawns_app. cbn. now rewrite app_nil_r.
Qed.

Lemma requests_slept (s : state W) :
  requests (trace (slept s)) = requests (trace s).
Proof.
  unfold slept; cbn [trace]. rewrite requests_app. cbn. now rewrite app_nil_r.
Qed.

Lemma spawns_slept (s : state W) : spawns (trace (slept s)) = spawns (trace s).
Proof.
  unfold slept; cbn [trace]. rewrite spawns_app. cbn. now rewrite app_nil_r.
Qed.

Lemma serves_nil_inv (self : GitHubOrgPuller) (org : string) (n : nat)
    (w w' : W) :
  ~ serves self org n w [] w'.
Proof. intros Hs. inversion Hs. Qed.

Lemma total_length_concat (pages : list (list repo)) :
  length (concat pages) = total_length pages.
Proof.
  unfold total_length. induction pages as [|pg pages IH]; simpl; auto.
  rewrite length_app. now rewrite IH.
Qed.

Lemma loop_serves (self : GitHubOrgPuller) (org : string)
    (full : list (list repo)) (last : list repo) :
  forall (n : nat) (acc : list repo) (s : state W) (w' : W) (fuel : nat),
    serves self org n (world s) (full ++ [last]) w' ->
    Forall (fun pg => per_page <= length pg) full ->
    length last < per_page ->
    length full < fuel ->
    exists s',
      get_all_repos_loop fuel self org n acc s
        = (Ret (acc ++ concat (full ++ [last])), s')
      /\ world s' = w'
      /\ environ s' = environ s
      /\ requests (trace s')
         = requests (trace s)
           ++ map (list_request self org) (seq n (S (length full)))
      /\ spawns (trace s') = spawns (trace s).
Proof.
  induction full as [|pg full IH]; intros n acc s w' fuel Hs Hfull Hlast Hfuel.
  - destruct fuel as [|fuel]; [simpl in Hfuel; lia|].
    cbn [app] in Hs. inversion Hs as [? ? ? body ? Hget|? ? ? ? ? ? ? ? Hrest]; subst.
    + destruct (loop_short self org fuel n acc s last body w' Hget Hlast)
        as [lines ->].
      eexists; split; [|split; [|split; [|split]]].
      * cbn [app concat]. now rewrite app_nil_r.
      * reflexivity.
      * reflexivity.
      * now rewrite requests_wrote, requests_fetched.
      * now rewrite spawns_wrote, spawns_fetched.
    + now apply serves_nil_inv in Hrest.
  - destruct fuel as [|fuel]; [simpl in Hfuel; lia|].
    cbn [app] in Hs. inversion Hs as [? ? ? ? ? ? Heq|? ? ? body w1 ? ? Hget Hrest]; subst.
    + destruct full; discriminate.
    + inversion Hfull as [|? ? Hpg Hfull']; subst.
      destruct (loop_full self org fuel n acc s pg body w1 Hget Hpg)
        as [lines ->].
      destruct (IH (S n) (acc ++ pg)
                  (slept (wrote lines (fetched self org n w1 s))) w' fuel)
        as (s' & Hrun & Hw & He & Hr & Hsp); auto.
      { simpl in Hfuel. lia. }
      exists s'. split; [|split; [|split; [|split]]].
      * rewrite Hrun. cbn [app concat]. now rewrite <- app_assoc.
      * exact Hw.
      * rewrite He. reflexivity.
      * rewrite Hr, requests_slept, requests_wrote, requests_fetched.
        rewrite <- app_assoc. reflexivity.
      * now rewrite Hsp, spawns_slept, spawns_wrote, spawns_fetched.
Qed.

(** C1. Pagination.  Let the endpoint answer the requests for the pages
    1, 2, ... with a run of pages of at least [per_page] = 100 entries
    followed by one page with fewer (possibly none).  Then, given fuel
    for that many iterations, [get_all_repos] returns the concatenation
    of exactly these pages, whose length is the sum of their lengths; the
    requests it issues are those for the pages 1, 2, ..., up to the short
    page, each with page size 100, and none after it. *)
Theorem get_all_repos_paginates (self : GitHubOrgPuller) (org : string)
    (full : list (list repo)) (last : list repo) (s : state W) (w' : W)
    (fuel : nat) :
  serves self org 1 (world s) (full ++ [last]) w' ->
  Forall (fun pg => per_page <= length pg) full ->
  length last < per_page ->
  length full < fuel ->
  exists s',
    get_all_repos self org fuel s = (Ret (concat (full ++ [last])), s')
    /\ length (concat (full ++ [last])) = total_length (full ++ [last])
    /\ (exists issued,
          requests (trace s') = requests (trace s) ++ issued
          /\ issued = map (list_request self org) (seq 1 (S (length full)))
          /\ map (fun rq => q_page (req_params rq)) issued
             = seq 1 (S (length full))
          /\ Forall (fun rq => q_per_page (req_params rq) = 100) issued)
    /\ world s' = w'.
Proof.
  intros Hs Hfull Hlast Hfuel.
  unfold get_all_repos, bind at 1. rewrite print_wrote.
  destruct (loop_serves self org full last 1 []
              (wrote [line ("Fetching repositories for organization: " +:+ org)] s)
              w' fuel Hs Hfull Hlast Hfuel)
    as (s1 & Hrun & Hw & He & Hr & Hsp).
  unfold bind at 1. rewrite Hrun. cbn [app].
  unfold bind at 1. rewrite print_wrote. unfold ret.
  eexists. split; [reflexivity|].
  split; [apply total_length_concat|].
  split; [|exact Hw].
  exists (map (list_request self org) (seq 1 (S (length full)))).
  split; [now rewrite requests_wrote, Hr, requests_wrote|].
  split; [reflexivity|].
  split.
  - rewrite map_map. cbn [list_request req_params q_page]. apply map_id.
  - apply Forall_map. cbn [list_request req_params q_per_page].
    apply Forall_forall. reflexivity.
Qed.

(** C2. Filtering.  On every list of repositories and every pair of
    flags the filtering loop returns, without failing and without
    touching the world, exactly the repositories [keep] accepts, in their
    original order; [keep] accepts a repository unless forks are excluded
    and it is a fork, or archived repositories are excluded and it is
    archived. *)
Theorem filter_loop_filters (include_forks include_archived : bool)
    (repos : list repo) (s : state W) :
  exists s',
    filter_loop include_forks include_archived repos [] s
      = (Ret (List.filter (keep include_forks include_archived) repos), s')
    /\ world s' = world s
    /\ environ s' = environ s
    /\ requests (trace s') = requests (trace s)
    /\ spawns (trace s') = spawns (trace s)
    /\ sublist (List.filter (keep include_forks include_archived) repos) repos
    /\ (forall r,
          In r (List.filter (keep include_forks include_archived) repos) <->
          In r repos
          /\ ~ (include_forks = false /\ fork r = true)
          /\ ~ (include_archived = false /\ archived r = true)).
Proof.
  destruct (filter_loop_spec include_forks include_archived repos [] s)
    as [lines Hrun].
  exists (wrote lines s). cbn [app] in Hrun.
  split; [exact Hrun|].
  split; [reflexivity|].
  split; [reflexivity|].
  split; [apply requests_wrote|].
  split; [apply spawns_wrote|].
  split; [apply filter_sublist|].
  intros r. rewrite filter_In, keep_iff. reflexivity.
Qed.

Lemma spawns_after_run (t : list event) (a : string) (c : spawn)
    (l : list string) :
  spawns (t ++ [EvWrite a; EvRun c] ++ map EvWrite l) = spawns t ++ [c].
Proof.
  rewrite !spawns_app, spawns_writes. reflexivity.
Qed.

Lemma written_after_run (t : list event) (a : string) (c : spawn)
    (l : list string) :
  written (t ++ [EvWrite a; EvRun c] ++ map EvWrite l) = written t ++ a :: l.
Proof.
  rewrite !written_app, written_writes. reflexivity.
Qed.

(** For a relative name and a directory that does not end in the
    separator, the destination is the directory, a slash and the name. *)
Lemma os_path_join_plain (dir nm : string) :
  startswith nm "/" = false ->
  dir <> "" ->
  ends_with_char dir "/" = false ->
  os_path_join dir nm = dir +:+ "/" +:+ nm.
Proof.
  intros Hrel Hdir Hend. unfold os_path_join. rewrite Hrel, Hend.
  destruct (String.eqb_spec dir ""); [contradiction|reflexivity].
Qed.


(** C10. The child's environment.  The one child process [clone_repo]
    starts is given an environment of its own: a copy of [os.environ] in
    which, over SSH, the variable [GIT_SSH_COMMAND] is set to an [ssh]
    that neither asks about host keys nor prompts (batch mode), and which
    is unchanged otherwise; every other variable is as in the parent,
    and [os.environ] itself is left as it was. *)
Theorem clone_repo_child_env (r : repo) (target_dir : string)
    (use_ssh : bool) (s : state W) :
  os_path_exists (world s) (os_path_join target_dir (name r)) = false ->
  exists b s' c child_env,
    clone_repo r target_dir use_ssh s = (Ret b, s')
    /\ spawns (trace s') = spawns (trace s) ++ [c]
    /\ env c = Some child_env
    /\ (use_ssh = true ->
        child_env
        = <["GIT_SSH_COMMAND" :=
              "ssh -o StrictHostKeyChecking=no -o BatchMode=yes"]> (environ s))
    /\ (use_ssh = false -> child_env = environ s)
    /\ (forall k : string,
          k <> "GIT_SSH_COMMAND" -> child_env !! k = environ s !! k)
    /\ environ s' = environ s.
Proof.
  intros Hex.
  destruct (subprocess_run (world s)
              (clone_spawn (selected_url r use_ssh)
                 (os_path_join target_dir (name r))
                 (clone_env use_ssh (environ s)))) as [res w'] eqn:Hrun.
  rewrite (clone_repo_fresh _ _ _ _ _ _ Hex Hrun).
  exists (fst (clone_verdict r use_ssh res)). eexists.
  exists (clone_spawn (selected_url r use_ssh)
            (os_path_join target_dir (name r))
            (clone_env use_ssh (environ s))).
  exists (clone_env use_ssh (environ s)).
  split; [reflexivity|].
  split; [cbn [trace]; apply spawns_after_run|].
  split; [reflexivity|].
  split; [intros ->; reflexivity|].
  split; [intros ->; reflexivity|].
  split; [|reflexivity].
  intros k Hk. unfold clone_env. destruct use_ssh; [|reflexivity].
  apply lookup_insert_ne. congruence.
Qed.

(** C6, as amended.  Once [git] has been started: an exit code of 0
    makes [clone_repo] return [True] and report the success; any other
    exit code makes it return [False], and the reason it prints is the
    child's error output with the white space around it stripped (all
    that [str.strip] removes, the white space outside ASCII too), except
    over SSH when that text contains "Permission denied": there it
    prints, in place of the error output, that SSH authentication failed
    and that the key should be added to the agent; a timeout makes it
    return [False] and report the timeout. *)
Theorem clone_repo_outcomes (r : repo) (target_dir : string) (use_ssh : bool)
    (s : state W) (res : result completed) (w' : W) :
  os_path_exists (world s) (os_path_join target_dir (name r)) = false ->
  subprocess_run (world s)
    (clone_spawn (selected_url r use_ssh) (os_path_join target_dir (name r))
       (clone_env use_ssh (environ s))) = (res, w') ->
  exists b report s',
    clone_repo r target_dir use_ssh s = (Ret b, s')
    /\ written (trace s')
       = written (trace s)
         ++ line ("📦 Cloning " +:+ name r +:+ "...") :: report
    /\ (forall c, res = Ok c -> returncode c = 0%Z ->
          b = true
          /\ report = [line ("✅ Successfully cloned " +:+ name r)])
    /\ (forall c, res = Ok c -> returncode c <> 0%Z ->
          use_ssh = false
          \/ contains "Permission denied" (strip (stderr c)) = false ->
          b = false
          /\ report = [line ("❌ Failed to clone " +:+ name r +:+ ": " +:+
                             strip (stderr c))])
    /\ (forall c, res = Ok c -> returncode c <> 0%Z ->
          use_ssh = true ->
          contains "Permission denied" (strip (stderr c)) = true ->
          b = false
          /\ report
             = [line ("❌ SSH authentication failed for " +:+ name r +:+
                      ". Make sure ssh-agent is running and key is added.");
                line "   Try: ssh-add ~/.ssh/id_ed25519"])
    /\ (forall m, res = Err (TimeoutExpired m) ->
          b = false
          /\ report = [line ("❌ Timeout while cloning " +:+ name r)]).
Proof.
  intros Hex Hrun.
  rewrite (clone_repo_fresh _ _ _ _ _ _ Hex Hrun).
  eexists _, _, _. split; [reflexivity|].
  split; [cbn [trace]; apply written_after_run|].
  split; [|split; [|split]].
  - intros c -> Hc. cbn [clone_verdict]. rewrite Hc. now cbn.
  - intros c -> Hc Hplain. cbn [clone_verdict].
    destruct (Z.eqb_spec (returncode c) 0); [contradiction|].
    destruct Hplain as [-> | ->].
    + rewrite andb_false_r. now cbn.
    + now cbn.
  - intros c -> Hc -> Hden. cbn [clone_verdict].
    destruct (Z.eqb_spec (returncode c) 0); [contradiction|].
    rewrite Hden. now cbn.
  - intros m ->. now cbn.
Qed.

(** ** The messages of the listing errors *)








(** ** The listing starts no child process *)

Lemma loop_no_spawn (self : GitHubOrgPuller) (org : string) (fuel : nat) :
  forall (page : nat) (acc : list repo) (s : state W)
         (o : outcome (list repo)) (s' : state W),
    get_all_repos_loop fuel self org page acc s = (o, s') ->
    spawns (trace s') = spawns (trace s).
Proof.
  induction fuel as [|fuel IH]; intros page acc s o s' Hrun.
  - cbn in Hrun. now inversion Hrun.
  - destruct (session_get (world s) (list_request self org page))
      as [[r|e] w'] eqn:Hget.
    + destruct (Z.eq_dec (status_code r) 404%Z) as [E404|N404].
      { rewrite (loop_404 _ _ _ _ _ _ _ _ Hget E404) in Hrun.
        inversion Hrun. apply spawns_fetched. }
      destruct (Z.eq_dec (status_code r) 403%Z) as [E403|N403].
      { rewrite (loop_403 _ _ _ _ _ _ _ _ Hget E403) in Hrun.
        inversion Hrun. apply spawns_fetched. }
      destruct (Z.eq_dec (status_code r) 200%Z) as [E200|N200].
      * destruct r as [st [pg|ej] body]; cbn in E200; subst st.
        -- destruct (Nat.lt_ge_cases (length pg) per_page) as [Hlt|Hge].
           ++ destruct (loop_short self org fuel page acc s pg body w' Hget Hlt)
                as [lines Hs]. rewrite Hs in Hrun. inversion Hrun.
              now rewrite spawns_wrote, spawns_fetched.
           ++ destruct (loop_full self org fuel page acc s pg body w' Hget Hge)
                as [lines Hs]. rewrite Hs in Hrun. apply IH in Hrun.
              now rewrite Hrun, spawns_slept, spawns_wrote, spawns_fetched.
        -- rewrite (loop_bad_json _ _ _ _ _ _ _ _ _ Hget) in Hrun.
           inversion Hrun. apply spawns_fetched.
      * rewrite (loop_other_status _ _ _ _ _ _ _ _ Hget N404 N403 N200) in Hrun.
        inversion Hrun. apply spawns_fetched.
    + rewrite (loop_raises _ _ _ _ _ _ _ _ Hget) in Hrun.
      inversion Hrun. apply spawns_fetched.
Qed.

Lemma get_all_repos_no_spawn (self : GitHubOrgPuller) (org : string)
    (fuel : nat) (s : state W) (o : outcome (list repo)) (s' : state W) :
  get_all_repos self org fuel s = (o, s') ->
  spawns (trace s') = spawns (trace s).
Proof.
  unfold get_all_repos, bind at 1. rewrite print_wrote.
  unfold bind at 1.
  destruct (get_all_repos_loop fuel self org 1 []
              (wrote [line ("Fetching repositories for organization: " +:+ org)] s))
    as [o1 s1] eqn:Hloop.
  apply loop_no_spawn in Hloop. rewrite spawns_wrote in Hloop.
  destruct o1; intros Hrun.
  - unfold bind at 1 in Hrun. rewrite print_wrote in Hrun. unfold ret in Hrun.
    inversion Hrun. now rewrite spawns_wrote.
  - inversion Hrun; now subst.
  - inversion Hrun; now subst.
  - inversion Hrun; now subst.
Qed.

(** ** The cloning loop and the summary *)

Lemma tally_total (results : list bool) :
  tally true results + tally false results = length results.
Proof.
  unfold tally. induction results as [|[|] l IH]; simpl; lia.
Qed.

Lemma tally_all_true (results : list bool) :
  Forall (eq true) results ->
  tally true results = length results /\ tally false results = 0.
Proof.
  unfold tally. induction 1 as [|b l Hb _ [IH1 IH2]]; simpl; [auto|].
  subst b. simpl. lia.
Qed.

Lemma clone_loop_spec (td : string) (use_ssh : bool) (total : nat)
    (repos : list repo) :
  forall (i successful failed : nat) (s : state W),
    exists results s',
      clone_loop td use_ssh total i repos successful failed s
        = (Ret (successful + tally true results,
                failed + tally false results), s')
      /\ Forall2 (fun r b =>
                    exists si si', clone_repo r td use_ssh si = (Ret b, si'))
           repos results.
Proof.
  induction repos as [|r rest IH]; intros i successful failed s.
  - exists [], s. cbn. unfold ret. rewrite !Nat.add_0_r. auto.
  - cbn [clone_loop]. unfold bind at 1, print_end, emit.
    destruct (clone_repo_returns r td use_ssh
                (log (EvWrite
                        ((nl +:+ "[" +:+ str_of_nat i +:+ "/" +:+
                          str_of_nat total +:+ "] ") +:+ "")) s))
      as (b & s1 & Hclone).
    unfold bind at 1. rewrite Hclone.
    destruct b.
    + destruct (IH (S i) (S successful) failed s1) as (results & s' & Hrun & Hall).
      exists (true :: results), s'. split.
      * rewrite Hrun. unfold tally. cbn. repeat f_equal; lia.
      * constructor; eauto.
    + destruct (IH (S i) successful (S failed) s1) as (results & s' & Hrun & Hall).
      exists (false :: results), s'. split.
      * rewrite Hrun. unfold tally. cbn. repeat f_equal; lia.
      * constructor; eauto.
Qed.

Lemma print_summary_spec (total successful failed : nat) (s : state W) :
  exists post,
    print_summary total successful failed s
      = (Ret tt,
         wrote ([line (nl +:+ str_repeat "=" 50); line "SUMMARY";
                 line (str_repeat "=" 50)]
                ++ summary_lines total successful failed ++ [post]) s).
Proof.
  unfold print_summary.
  destruct (0 <? failed)%nat; eexists;
    repeat (unfold bind at 1; rewrite print_wrote; rewrite ?wrote_wrote);
    rewrite print_wrote, wrote_wrote; reflexivity.
Qed.

(** ** Before the listing *)

Lemma init_wrote (tok : option string) (s : state W) :
  exists puller lines, init tok s = (Ret puller, wrote lines s).
Proof.
  unfold init. destruct tok as [t|].
  - destruct (truthy (Some t)).
    + eexists _, []. now rewrite wrote_nil.
    + unfold bind at 1. rewrite print_wrote. eexists _, [_]. reflexivity.
  - unfold bind at 1. rewrite print_wrote. eexists _, [_]. reflexivity.
Qed.

Lemma clone_invocations_app (t u : list event) :
  clone_invocations (t ++ u) = clone_invocations t ++ clone_invocations u.
Proof. unfold clone_invocations. now rewrite spawns_app, List.filter_app. Qed.

Lemma clone_invocations_wrote (l : list string) (s : state W) :
  clone_invocations (trace (wrote l s)) = clone_invocations (trace s).
Proof. unfold clone_invocations. now rewrite spawns_wrote. Qed.

(** The probe of the SSH agent is the only child process of the prelude,
    and it is not a [git clone]. *)
Lemma prelude_no_clone (self : GitHubOrgPuller) (org : string)
    (td : option string) (use_ssh : bool) (s : state W)
    (o : outcome (option string)) (s' : state W) :
  pull_prelude self org td use_ssh s = (o, s') ->
  clone_invocations (trace s') = clone_invocations (trace s).
Proof.
  unfold pull_prelude, check_ssh_agent. unfold_py. cbn [world environ trace].
  intros Hrun.
  repeat match type of Hrun with
         | context [let (_, _) := ?x in _] => destruct x as [[?|?] ?]
         | context [if ?b then _ else _] => destruct b
         | context [match ?e with ValueError _ => _ | _ => _ end] => destruct e
         | _ => progress cbn [world environ trace negb] in Hrun
         end;
    inversion Hrun; subst; cbn [trace];
    rewrite ?clone_invocations_app; cbn; now rewrite ?app_nil_r.
Qed.

(** ** The run *)

(** A run whose prelude goes through continues with the [try]
    statement. *)
Lemma main_reaches (a : args) (fuel : nat) (s sa s0 : state W)
    (puller : GitHubOrgPuller) (td : string) :
  init (chosen_token a s) s = (Ret puller, sa) ->
  pull_prelude puller (organization a) (arg_target_dir a) (ssh a) sa
    = (Ret (Some td), s0) ->
  main a fuel s
    = pull_try puller (organization a) td (ssh a) (negb (no_forks a))
        (negb (no_archived a)) fuel s0.
Proof.
  intros Hinit Hpre. unfold main, bind at 1, get_environ.
  unfold chosen_token in Hinit. unfold bind at 1. rewrite Hinit.
  unfold pull_all_repos, bind at 1. rewrite Hpre. reflexivity.
Qed.

Lemma pull_try_fails (self : GitHubOrgPuller) (org td : string)
    (use_ssh f a : bool) (fuel : nat) (s0 s1 : state W) (e : error) :
  get_all_repos self org fuel s0 = (Raise e, s1) ->
  pull_try self org td use_ssh f a fuel s0
    = (Exit 1, wrote [line ("❌ Error: " +:+ str_of_error e)] s1).
Proof.
  intros Hlist. unfold pull_try, try_except, bind at 1. rewrite Hlist.
  unfold bind at 1. rewrite print_wrote. reflexivity.
Qed.

Lemma pull_try_completes (self : GitHubOrgPuller) (org td : string)
    (use_ssh f a : bool) (fuel : nat) (s0 s1 : state W) (repos : list repo) :
  get_all_repos self org fuel s0 = (Ret repos, s1) ->
  exists results pre post sf,
    pull_try self org td use_ssh f a fuel s0 = (Ret tt, sf)
    /\ Forall2 (fun r b =>
                  exists si si', clone_repo r td use_ssh si = (Ret b, si'))
         (List.filter (keep f a) repos) results
    /\ written (trace sf)
       = pre ++ summary_lines (length (List.filter (keep f a) repos))
                  (tally true results) (tally false results) ++ [post].
Proof.
  intros Hlist. unfold pull_try, try_except, bind at 1. rewrite Hlist.
  destruct (filter_loop_spec f a repos [] s1) as [lines Hfilter].
  cbn [app] in Hfilter. unfold bind at 1. rewrite Hfilter.
  set (filtered := List.filter (keep f a) repos).
  unfold bind at 1. rewrite print_wrote.
  match goal with
  | |- context [bind (clone_loop _ _ _ _ _ _ _) _ ?st] =>
      destruct (clone_loop_spec td use_ssh (length filtered) filtered 1 0 0 st)
        as (results & s2 & Hloop & Hall)
  end.
  unfold bind at 1. rewrite Hloop. cbn [fst snd Nat.add].
  destruct (print_summary_spec (length filtered) (tally true results)
              (tally false results) s2) as [post Hsum].
  rewrite Hsum.
  exists results,
    (written (trace s2)
     ++ [line (nl +:+ str_repeat "=" 50); line "SUMMARY";
         line (str_repeat "=" 50)]), post.
  eexists. split; [reflexivity|]. split; [exact Hall|].
  unfold wrote. cbn [trace].
  rewrite written_app, written_writes. now rewrite <- app_assoc.
Qed.

(** C5, as amended.  For a run that gets as far as the listing: if the
    listing returns, the process ends with status 0, whatever happens to
    the single clones; if the listing raises (organization not found,
    rate limit, API error), the process ends with status 1.  A missing
    [git] is not fatal: [clone_repo] catches the error, reports it and
    returns [False], so that it counts as one more failed clone. *)
Theorem exit_status_of_run (a : args) (fuel : nat) (s sa s0 : state W)
    (puller : GitHubOrgPuller) (td : string) :
  init (chosen_token a s) s = (Ret puller, sa) ->
  pull_prelude puller (organization a) (arg_target_dir a) (ssh a) sa
    = (Ret (Some td), s0) ->
  (forall repos s1,
     get_all_repos puller (organization a) fuel s0 = (Ret repos, s1) ->
     exit_status (fst (main a fuel s)) = Some 0%Z)
  /\ (forall e s1,
        get_all_repos puller (organization a) fuel s0 = (Raise e, s1) ->
        exit_status (fst (main a fuel s)) = Some 1%Z)
  /\ (forall r s2 m w',
        os_path_exists (world s2) (os_path_join td (name r)) = false ->
        subprocess_run (world s2)
          (clone_spawn (selected_url r (ssh a)) (os_path_join td (name r))
             (clone_env (ssh a) (environ s2)))
          = (Err (FileNotFoundError m), w') ->
        exists s3,
          clone_repo r td (ssh a) s2 = (Ret false, s3)
          /\ written (trace s3)
             = written (trace s2)
               ++ [line ("📦 Cloning " +:+ name r +:+ "...");
                   line "❌ Git is not installed or not in PATH"]).
Proof.
  intros Hinit Hpre. rewrite (main_reaches _ fuel _ _ _ _ _ Hinit Hpre).
  split; [|split].
  - intros repos s1 Hlist.
    destruct (pull_try_completes puller (organization a) td (ssh a)
                (negb (no_forks a)) (negb (no_archived a)) fuel s0 s1 repos Hlist)
      as (results & pre & post & sf & -> & _). reflexivity.
  - intros e s1 Hlist. rewrite (pull_try_fails _ _ _ _ _ _ _ _ _ _ Hlist).
    reflexivity.
  - intros r s2 m w' Hex Hrun.
    rewrite (clone_repo_fresh _ _ _ _ _ _ Hex Hrun).
    eexists. split; [reflexivity|].
    cbn [trace]. apply written_after_run.
Qed.

(** C8. A failed listing.  If the listing raises, the run ends there:
    the error is printed and the process exits with status 1; nothing
    else is written after the output of the listing, no child process is
    started after it, and the whole run contains no [git clone]. *)
Theorem listing_failure_aborts (a : args) (fuel : nat) (s sa s0 s1 : state W)
    (puller : GitHubOrgPuller) (td : string) (e : error) :
  init (chosen_token a s) s = (Ret puller, sa) ->
  pull_prelude puller (organization a) (arg_target_dir a) (ssh a) sa
    = (Ret (Some td), s0) ->
  get_all_repos puller (organization a) fuel s0 = (Raise e, s1) ->
  exists sf,
    main a fuel s = (Exit 1, sf)
    /\ written (trace sf)
       = written (trace s1) ++ [line ("❌ Error: " +:+ str_of_error e)]
    /\ spawns (trace sf) = spawns (trace s0)
    /\ clone_invocations (trace sf) = clone_invocations (trace s).
Proof.
  intros Hinit Hpre Hlist. rewrite (main_reaches _ fuel _ _ _ _ _ Hinit Hpre).
  rewrite (pull_try_fails _ _ _ _ _ _ _ _ _ _ Hlist).
  eexists. split; [reflexivity|].
  split; [unfold wrote; cbn [trace]; now rewrite written_app, written_writes|].
  pose proof (get_all_repos_no_spawn _ _ _ _ _ _ Hlist) as Hsp.
  split; [now rewrite spawns_wrote|].
  rewrite clone_invocations_wrote. unfold clone_invocations at 1. rewrite Hsp.
  fold (clone_invocations (trace s0)).
  rewrite (prelude_no_clone _ _ _ _ _ _ _ Hpre).
  destruct (init_wrote (chosen_token a s) s) as (p' & lines & Hi).
  rewrite Hi in Hinit. inversion Hinit; subst.
  apply clone_invocations_wrote.
Qed.

(** C9. The summary.  If the listing returns, the run goes through to
    the summary.  There is one clone result per repository that survived
    the filtering, each of them the value [clone_repo] returned for it;
    the summary prints the number of these repositories as the total, the
    number of [True] results as successful and the number of [False]
    results as failed.  The two counts add up to the total, and when
    every clone succeeds they are the total and 0. *)
Theorem summary_counts (a : args) (fuel : nat) (s sa s0 s1 : state W)
    (puller : GitHubOrgPuller) (td : string) (repos : list repo) :
  init (chosen_token a s) s = (Ret puller, sa) ->
  pull_prelude puller (organization a) (arg_target_dir a) (ssh a) sa
    = (Ret (Some td), s0) ->
  get_all_repos puller (organization a) fuel s0 = (Ret repos, s1) ->
  exists results pre post sf,
    main a fuel s = (Ret tt, sf)
    /\ Forall2 (fun r b =>
                  exists si si', clone_repo r td (ssh a) si = (Ret b, si'))
         (surviving a repos) results
    /\ length results = length (surviving a repos)
    /\ written (trace sf)
       = pre ++ summary_lines (length (surviving a repos))
                  (tally true results) (tally false results) ++ [post]
    /\ tally true results + tally false results = length (surviving a repos)
    /\ (Forall (eq true) results ->
        tally true results = length (surviving a repos)
        /\ tally false results = 0).
Proof.
  intros Hinit Hpre Hlist. rewrite (main_reaches _ fuel _ _ _ _ _ Hinit Hpre).
  destruct (pull_try_completes puller (organization a) td (ssh a)
              (negb (no_forks a)) (negb (no_archived a)) fuel s0 s1 repos Hlist)
    as (results & pre & post & sf & Hrun & Hall & Hout).
  fold (surviving a repos) in Hall, Hout.
  pose proof (Forall2_length _ _ _ Hall) as Hlen.
  exists results, pre, post, sf.
  split; [exact Hrun|]. split; [exact Hall|]. split; [now symmetry|].
  split; [exact Hout|].
  split; [rewrite tally_total; now symmetry|].
  intros Htrue. rewrite Hlen. now apply tally_all_true.
Qed.

(* --------------------------------------------------------------------- *)
(** ** Beyond the claims: the agent probe                                 *)
(* --------------------------------------------------------------------- *)

Lemma reads_app (t u : list event) : reads (t ++ u) = reads t + reads u.
Proof. unfold reads. now rewrite List.filter_app, length_app. Qed.

Lemma reads_writes (l : list string) : reads (map EvWrite l) = 0.
Proof. induction l; simpl; auto. Qed.

Lemma net_events_app (t u : list event) :
  net_events (t ++ u) = net_events t ++ net_events u.
Proof. unfold net_events. now rewrite List.filter_app. Qed.

Lemma net_events_writes (l : list string) : net_events (map EvWrite l) = [].
Proof. induction l; simpl; auto. Qed.

Lemma check_ssh_agent_spec (s : state W) (res : result completed) (w2 : W) :
  subprocess_run (world s) probe = (res, w2) ->
  exists lines,
    check_ssh_agent s
      = (Ret (probe_ok res),
         {| world := w2; environ := environ s;
            trace := trace s ++ EvRun probe :: map EvWrite lines |}).
Proof.
  intros Hrun. unfold check_ssh_agent. unfold_py. cbn [world environ trace].
  fold probe. rewrite Hrun.
  destruct res as [c|e]; cbn [probe_ok].
  - destruct (returncode c =? 0)%Z; cbn [world environ trace].
    + eexists [_]. cbn [map]. now rewrite <- !app_assoc.
    + eexists [_; _]. cbn [map]. now rewrite <- !app_assoc.
  - destruct e; cbn [world environ trace]; eexists [_]; cbn [map];
      now rewrite <- !app_assoc.
Qed.

(** X1. The probe of the SSH agent never raises.  It starts exactly one
    child process, [ssh-add -l], without a timeout and with the inherited
    environment; it sends no request and reads nothing from standard
    input; and it answers [True] exactly when that process could be run
    and ended with exit code 0. *)
Theorem check_ssh_agent_probe (s : state W) :
  exists b s',
    check_ssh_agent s = (Ret b, s')
    /\ spawns (trace s')
       = spawns (trace s)
         ++ [{| argv := ["ssh-add"; "-l"]; timeout := None; env := None |}]
    /\ requests (trace s') = requests (trace s)
    /\ reads (trace s') = reads (trace s)
    /\ environ s' = environ s
    /\ world s' = snd (subprocess_run (world s) probe)
    /\ (b = true <->
        exists c, fst (subprocess_run (world s) probe) = Ok c
                  /\ returncode c = 0%Z).
Proof.
  destruct (subprocess_run (world s) probe) as [res w2] eqn:Hrun.
  destruct (check_ssh_agent_spec s res w2 Hrun) as [lines Hspec].
  eexists _, _. split; [exact Hspec|]. cbn [world environ trace fst snd].
  split; [rewrite spawns_app; cbn; now rewrite spawns_writes|].
  split; [rewrite requests_app; cbn; now rewrite requests_writes, app_nil_r|].
  split; [rewrite reads_app; unfold reads at 2; cbn;
          fold (reads (map EvWrite lines)); rewrite reads_writes; lia|].
  split; [reflexivity|]. split; [reflexivity|].
  destruct res as [c|e]; cbn [probe_ok].
  - split.
    + intros Hb. exists c. split; [reflexivity|]. now apply Z.eqb_eq.
    + intros (c' & Hc & Hz). inversion Hc; subst. now apply Z.eqb_eq.
  - split; [discriminate|]. intros (c & Hc & _). discriminate.
Qed.

(* --------------------------------------------------------------------- *)
(** ** Beyond the claims: one clone                                       *)
(* --------------------------------------------------------------------- *)

(** X2. [clone_repo] never raises, and it reports success exactly when
    the destination was already there or [git clone] could be run and
    ended with exit code 0: a non-zero exit code, a timeout, a missing
    [git] and any other exception of the child process all give
    [False]. *)
Theorem clone_repo_true_iff (r : repo) (target_dir : string) (use_ssh : bool)
    (s : state W) :
  exists b s',
    clone_repo r target_dir use_ssh s = (Ret b, s')
    /\ (b = true <->
        os_path_exists (world s) (os_path_join target_dir (name r)) = true
        \/ exists c,
             fst (subprocess_run (world s)
                    (clone_spawn (selected_url r use_ssh)
                       (os_path_join target_dir (name r))
                       (clone_env use_ssh (environ s)))) = Ok c
             /\ returncode c = 0%Z).
Proof.
  destruct (os_path_exists (world s) (os_path_join target_dir (name r)))
    eqn:Hex.
  - rewrite clone_repo_exists by exact Hex. eexists _, _.
    split; [reflexivity|]. split; auto.
  - destruct (subprocess_run (world s)
                (clone_spawn (selected_url r use_ssh)
                   (os_path_join target_dir (name r))
                   (clone_env use_ssh (environ s)))) as [res w'] eqn:Hrun.
    rewrite (clone_repo_fresh _ _ _ _ _ _ Hex Hrun). eexists _, _.
    split; [reflexivity|]. cbn [fst].
    destruct res as [c|e]; cbn [clone_verdict].
    + destruct (Z.eqb_spec (returncode c) 0) as [Hz|Hz].
      * cbn. split; eauto.
      * destruct (contains "Permission denied" (strip (stderr c)) && use_ssh);
          cbn; (split; [discriminate|]);
          (intros [Hf | (c' & Hc & Hz')]; [discriminate|]);
          inversion Hc; subst; contradiction.
    + destruct e; cbn; (split; [discriminate|]);
        intros [Hf | (c' & Hc & _)]; discriminate.
Qed.

(* --------------------------------------------------------------------- *)
(** ** Beyond the claims: the listing                                     *)
(* --------------------------------------------------------------------- *)

Lemma extends_refl (P : event -> Prop) (s : state W) : extends_with P s s.
Proof. exists []. split; [now rewrite app_nil_r|constructor]. Qed.

Lemma extends_trans (P : event -> Prop) (s1 s2 s3 : state W) :
  extends_with P s1 s2 -> extends_with P s2 s3 -> extends_with P s1 s3.
Proof.
  intros (e1 & H1 & F1) (e2 & H2 & F2). exists (e1 ++ e2). split.
  - now rewrite H2, H1, app_assoc.
  - apply Forall_app. auto.
Qed.

Lemma extends_wrote (P : event -> Prop) (l : list string) (s : state W) :
  (forall x, P (EvWrite x)) -> extends_with P s (wrote l s).
Proof.
  intros HP. exists (map EvWrite l). split; [reflexivity|].
  apply Forall_map. apply Forall_forall. intros x _. apply HP.
Qed.

Lemma extends_fetched (self : GitHubOrgPuller) (org : string) (page : nat)
    (w' : W) (s : state W) :
  extends_with (listing_event self org) s (fetched self org page w' s).
Proof.
  eexists. split; [reflexivity|].
  repeat constructor. cbn. eauto.
Qed.

Lemma extends_slept (self : GitHubOrgPuller) (org : string) (s : state W) :
  extends_with (listing_event self org) s (slept s).
Proof. eexists. split; [reflexivity|]. repeat constructor. Qed.

Lemma listing_event_write (self : GitHubOrgPuller) (org x : string) :
  listing_event self org (EvWrite x).
Proof. exact I. Qed.

Lemma loop_events (self : GitHubOrgPuller) (org : string) (fuel : nat) :
  forall (page : nat) (acc : list repo) (s : state W)
         (o : outcome (list repo)) (s' : state W),
    get_all_repos_loop fuel self org page acc s = (o, s') ->
    extends_with (listing_event self org) s s' /\ environ s' = environ s.
Proof.
  induction fuel as [|fuel IH]; intros page acc s o s' Hrun.
  - cbn in Hrun. inversion Hrun; subst. split; [apply extends_refl|reflexivity].
  - destruct (session_get (world s) (list_request self org page))
      as [[r|e] w'] eqn:Hget.
    + destruct (Z.eq_dec (status_code r) 404%Z) as [E404|N404].
      { rewrite (loop_404 _ _ _ _ _ _ _ _ Hget E404) in Hrun.
        inversion Hrun; subst. split; [apply extends_fetched|reflexivity]. }
      destruct (Z.eq_dec (status_code r) 403%Z) as [E403|N403].
      { rewrite (loop_403 _ _ _ _ _ _ _ _ Hget E403) in Hrun.
        inversion Hrun; subst. split; [apply extends_fetched|reflexivity]. }
      destruct (Z.eq_dec (status_code r) 200%Z) as [E200|N200].
      * destruct r as [st [pg|ej] body]; cbn in E200; subst st.
        -- destruct (Nat.lt_ge_cases (length pg) per_page) as [Hlt|Hge].
           ++ destruct (loop_short self org fuel page acc s pg body w' Hget Hlt)
                as [lines Hs]. rewrite Hs in Hrun. inversion Hrun; subst.
              split; [|reflexivity].
              eapply extends_trans; [apply extends_fetched|].
              apply extends_wrote, listing_event_write.
           ++ destruct (loop_full self org fuel page acc s pg body w' Hget Hge)
                as [lines Hs]. rewrite Hs in Hrun.
              apply IH in Hrun as [Hext Henv]. split; [|exact Henv].
              eapply extends_trans; [apply extends_fetched|].
              eapply extends_trans;
                [apply extends_wrote, listing_event_write|].
              eapply extends_trans; [apply extends_slept|exact Hext].
        -- rewrite (loop_bad_json _ _ _ _ _ _ _ _ _ Hget) in Hrun.
           inversion Hrun; subst.
           split; [apply extends_fetched|reflexivity].
      * rewrite (loop_other_status _ _ _ _ _ _ _ _ Hget N404 N403 N200) in Hrun.
        inversion Hrun; subst. split; [apply extends_fetched|reflexivity].
    + rewrite (loop_raises _ _ _ _ _ _ _ _ Hget) in Hrun.
      inversion Hrun; subst. split; [apply extends_fetched|reflexivity].
Qed.

Lemma listing_events_quiet (self : GitHubOrgPuller) (org : string)
    (evs : list event) :
  Forall (listing_event self org) evs ->
  spawns evs = [] /\ reads evs = 0 /\ made_dirs evs = [].
Proof.
  induction 1 as [|e evs He _ (IH1 & IH2 & IH3)]; [now cbn|].
  destruct e; cbn in He; try contradiction; cbn; auto.
Qed.

Lemma get_all_repos_events (self : GitHubOrgPuller) (org : string)
    (fuel : nat) (s : state W) (o : outcome (list repo)) (s' : state W) :
  get_all_repos self org fuel s = (o, s') ->
  extends_with (listing_event self org) s s' /\ environ s' = environ s.
Proof.
  unfold get_all_repos, bind at 1. rewrite print_wrote. unfold bind at 1.
  destruct (get_all_repos_loop fuel self org 1 []
              (wrote [line ("Fetching repositories for organization: " +:+ org)] s))
    as [o1 s1] eqn:Hloop.
  apply loop_events in Hloop as [Hext Henv].
  assert (extends_with (listing_event self org) s s1) as Hs1.
  { eapply extends_trans; [|exact Hext].
    apply extends_wrote, listing_event_write. }
  destruct o1; intros Hrun.
  - unfold bind at 1 in Hrun. rewrite print_wrote in Hrun. unfold ret in Hrun.
    inversion Hrun; subst. split; [|exact Henv].
    eapply extends_trans; [exact Hs1|].
    apply extends_wrote, listing_event_write.
  - inversion Hrun; subst. auto.
  - inversion Hrun; subst. auto.
  - inversion Hrun; subst. auto.
Qed.

(** X3. Whatever the endpoint answers and however the listing ends, it
    only talks to the API: between its start and its end there is
    nothing but output, pauses of 100 ms and requests for pages of this
    organization with the headers of the session.  It starts no child
    process, reads nothing from standard input, creates no directory and
    leaves [os.environ] alone. *)
Theorem get_all_repos_only_talks_to_api (self : GitHubOrgPuller)
    (org : string) (fuel : nat) (s : state W) :
  exists evs,
    trace (snd (get_all_repos self org fuel s)) = trace s ++ evs
    /\ Forall (listing_event self org) evs
    /\ spawns evs = []
    /\ reads evs = 0
    /\ made_dirs evs = []
    /\ environ (snd (get_all_repos self org fuel s)) = environ s.
Proof.
  destruct (get_all_repos self org fuel s) as [o sf] eqn:Hrun.
  apply get_all_repos_events in Hrun as [(evs & Htr & Hall) Henv].
  exists evs. cbn [snd]. split; [exact Htr|]. split; [exact Hall|].
  destruct (listing_events_quiet self org evs Hall) as (H1 & H2 & H3).
  auto.
Qed.

Lemma net_events_wrote (l : list string) (s : state W) :
  net_events (trace (wrote l s)) = net_events (trace s).
Proof.
  unfold wrote; cbn [trace].
  now rewrite net_events_app, net_events_writes, app_nil_r.
Qed.

Lemma net_events_fetched (self : GitHubOrgPuller) (org : string) (page : nat)
    (w' : W) (s : state W) :
  net_events (trace (fetched self org page w' s))
    = net_events (trace s) ++ [EvGet (list_request self org page)].
Proof. unfold fetched; cbn [trace]. now rewrite net_events_app. Qed.

Lemma net_events_slept (s : state W) :
  net_events (trace (slept s)) = net_events (trace s) ++ [EvSleep 100].
Proof. unfold slept; cbn [trace]. now rewrite net_events_app. Qed.

Lemma loop_paced (self : GitHubOrgPuller) (org : string)
    (full : list (list repo)) (last : list repo) :
  forall (n : nat) (acc : list repo) (s : state W) (w' : W) (fuel : nat),
    serves self org n (world s) (full ++ [last]) w' ->
    Forall (fun pg => per_page <= length pg) full ->
    length last < per_page ->
    length full < fuel ->
    net_events (trace (snd (get_all_repos_loop fuel self org n acc s)))
      = net_events (trace s) ++ paced self org n (length full).
Proof.
  induction full as [|pg full IH]; intros n acc s w' fuel Hs Hfull Hlast Hfuel.
  - destruct fuel as [|fuel]; [simpl in Hfuel; lia|].
    cbn [app] in Hs.
    inversion Hs as [? ? ? body ? Hget|? ? ? ? ? ? ? ? Hrest]; subst.
    + destruct (loop_short self org fuel n acc s last body w' Hget Hlast)
        as [lines ->].
      cbn [snd length paced]. now rewrite net_events_wrote, net_events_fetched.
    + now apply serves_nil_inv in Hrest.
  - destruct fuel as [|fuel]; [simpl in Hfuel; lia|].
    cbn [app] in Hs.
    inversion Hs as [? ? ? ? ? ? Heq|? ? ? body w1 ? ? Hget Hrest]; subst.
    + destruct full; discriminate.
    + inversion Hfull as [|? ? Hpg Hfull']; subst.
      destruct (loop_full self org fuel n acc s pg body w1 Hget Hpg)
        as [lines ->].
      rewrite (IH (S n) (acc ++ pg)
                 (slept (wrote lines (fetched self org n w1 s))) w' fuel);
        auto; [|simpl in Hfuel; lia].
      rewrite net_events_slept, net_events_wrote, net_events_fetched.
      cbn [length paced]. rewrite <- !app_assoc. reflexivity.
Qed.

(** X4. The pauses of the listing.  When the endpoint answers with a run
    of full pages followed by a short one, the requests and pauses of
    the listing alternate: every request but the last is followed by one
    pause of 100 ms before the next request, and no pause follows the
    request that was answered with the short page. *)
Theorem listing_pauses_between_requests (self : GitHubOrgPuller)
    (org : string) (full : list (list repo)) (last : list repo)
    (s : state W) (w' : W) (fuel : nat) :
  serves self org 1 (world s) (full ++ [last]) w' ->
  Forall (fun pg => per_page <= length pg) full ->
  length last < per_page ->
  length full < fuel ->
  net_events (trace (snd (get_all_repos self org fuel s)))
    = net_events (trace s) ++ paced self org 1 (length full).
Proof.
  intros Hs Hfull Hlast Hfuel.
  unfold get_all_repos, bind at 1. rewrite print_wrote. unfold bind at 1.
  pose proof (loop_paced self org full last 1 []
                (wrote [line ("Fetching repositories for organization: " +:+ org)] s)
                w' fuel Hs Hfull Hlast Hfuel) as Hnet.
  destruct (loop_serves self org full last 1 []
              (wrote [line ("Fetching repositories for organization: " +:+ org)] s)
              w' fuel Hs Hfull Hlast Hfuel) as (s1 & Hrun & _).
  rewrite Hrun in Hnet |- *. cbn [snd] in Hnet.
  unfold bind at 1. rewrite print_wrote. unfold ret. cbn [snd].
  now rewrite net_events_wrote, Hnet, net_events_wrote.
Qed.

Lemma loop_starves (self : GitHubOrgPuller) (org : string) (fuel : nat) :
  forall (full : list (list repo)) (n : nat) (acc : list repo) (s : state W)
         (w1 : W),
    serves_full self org n (world s) full w1 ->
    Forall (fun pg => per_page <= length pg) full ->
    fuel <= length full ->
    fst (get_all_repos_loop fuel self org n acc s) = OutOfFuel.
Proof.
  induction fuel as [|fuel IH]; intros full n acc s w1 Hs Hfull Hfuel.
  - reflexivity.
  - destruct full as [|pg full]; [simpl in Hfuel; lia|].
    inversion Hs as [|? ? ? body w' ? ? Hget Hrest]; subst.
    inversion Hfull as [|? ? Hpg Hfull']; subst.
    destruct (loop_full self org fuel n acc s pg body w' Hget Hpg)
      as [lines ->].
    apply (IH full (S n) _ _ w1); auto. simpl in Hfuel. lia.
Qed.

(** X5. The listing has no bound of its own on the number of pages: as
    long as the endpoint keeps answering with full pages the loop goes
    on.  If the first [k] answers are full pages, then [k] iterations
    (or fewer) do not bring [get_all_repos] to an end. *)
Theorem listing_needs_a_short_page (self : GitHubOrgPuller) (org : string)
    (full : list (list repo)) (s : state W) (w1 : W) (fuel : nat) :
  serves_full self org 1 (world s) full w1 ->
  Forall (fun pg => per_page <= length pg) full ->
  fuel <= length full ->
  fst (get_all_repos self org fuel s) = OutOfFuel.
Proof.
  intros Hs Hfull Hfuel.
  unfold get_all_repos, bind at 1. rewrite print_wrote. unfold bind at 1.
  pose proof (loop_starves self org fuel full 1 []
                (wrote [line ("Fetching repositories for organization: " +:+ org)] s)
                w1 Hs Hfull Hfuel) as Hloop.
  destruct (get_all_repos_loop fuel self org 1 []
              (wrote [line ("Fetching repositories for organization: " +:+ org)] s))
    as [o1 s1].
  cbn [fst] in Hloop. subst o1. reflexivity.
Qed.

Lemma loop_error_after (self : GitHubOrgPuller) (org : string)
    (full : list (list repo)) :
  forall (n : nat) (acc : list repo) (s : state W) (w1 w2 : W) (e : error)
         (fuel : nat),
    serves_full self org n (world s) full w1 ->
    Forall (fun pg => per_page <= length pg) full ->
    session_get w1 (list_request self org (n + length full)) = (Err e, w2) ->
    length full < fuel ->
    exists s',
      get_all_repos_loop fuel self org n acc s = (Raise e, s')
      /\ world s' = w2
      /\ requests (trace s')
         = requests (trace s)
           ++ map (list_request self org) (seq n (S (length full))).
Proof.
  induction full as [|pg full IH];
    intros n acc s w1 w2 e fuel Hs Hfull Herr Hfuel.
  - destruct fuel as [|fuel]; [simpl in Hfuel; lia|].
    inversion Hs; subst. cbn [length] in Herr. rewrite Nat.add_0_r in Herr.
    rewrite (loop_raises _ _ _ _ _ _ _ _ Herr).
    eexists. split; [reflexivity|]. split; [reflexivity|].
    now rewrite requests_fetched.
  - destruct fuel as [|fuel]; [simpl in Hfuel; lia|].
    inversion Hs as [|? ? ? body w' ? ? Hget Hrest]; subst.
    inversion Hfull as [|? ? Hpg Hfull']; subst.
    destruct (loop_full self org fuel n acc s pg body w' Hget Hpg)
      as [lines ->].
    cbn [length] in Herr. rewrite Nat.add_succ_r in Herr.
    destruct (IH (S n) (acc ++ pg)
                (slept (wrote lines (fetched self org n w' s))) w1 w2 e fuel)
      as (s' & Hrun & Hw & Hr); auto.
    { simpl in Hfuel. lia. }
    exists s'. split; [exact Hrun|]. split; [exact Hw|].
    rewrite Hr, requests_slept, requests_wrote, requests_fetched.
    rewrite <- app_assoc. reflexivity.
Qed.

(** X6. An exception of [session.get] (a network failure, say) on any
    page ends the listing with that exception: the pages fetched before
    are not returned, and no request follows the one that failed. *)
Theorem listing_error_discards_pages (self : GitHubOrgPuller) (org : string)
    (full : list (list repo)) (s : state W) (w1 w2 : W) (e : error)
    (fuel : nat) :
  serves_full self org 1 (world s) full w1 ->
  Forall (fun pg => per_page <= length pg) full ->
  session_get w1 (list_request self org (S (length full))) = (Err e, w2) ->
  length full < fuel ->
  exists s',
    get_all_repos self org fuel s = (Raise e, s')
    /\ world s' = w2
    /\ requests (trace s')
       = requests (trace s)
         ++ map (list_request self org) (seq 1 (S (length full))).
Proof.
  intros Hs Hfull Herr Hfuel.
  unfold get_all_repos, bind at 1. rewrite print_wrote. unfold bind at 1.
  destruct (loop_error_after self org full 1 []
              (wrote [line ("Fetching repositories for organization: " +:+ org)] s)
              w1 w2 e fuel Hs Hfull Herr Hfuel) as (s' & Hrun & Hw & Hr).
  rewrite Hrun. exists s'. split; [reflexivity|]. split; [exact Hw|].
  now rewrite Hr, requests_wrote.
Qed.

(* --------------------------------------------------------------------- *)
(** ** Beyond the claims: the cloning loop and the summary                *)
(* --------------------------------------------------------------------- *)

Lemma requests_after_run (t : list event) (a : string) (c : spawn)
    (l : list string) :
  requests (t ++ [EvWrite a; EvRun c] ++ map EvWrite l) = requests t.
Proof.
  rewrite !requests_app, requests_writes. cbn. now rewrite app_nil_r.
Qed.

Lemma clone_repo_effects (r : repo) (td : string) (use_ssh : bool)
    (s : state W) :
  exists b s' l,
    clone_repo r td use_ssh s = (Ret b, s')
    /\ spawns (trace s') = spawns (trace s) ++ l
    /\ (l = []
        \/ l = [clone_spawn (selected_url r use_ssh) (os_path_join td (name r))
                  (clone_env use_ssh (environ s))])
    /\ requests (trace s') = requests (trace s)
    /\ environ s' = environ s.
Proof.
  destruct (os_path_exists (world s) (os_path_join td (name r))) eqn:Hex.
  - rewrite clone_repo_exists by exact Hex. eexists _, _, [].
    split; [reflexivity|].
    split; [now rewrite spawns_wrote, app_nil_r|].
    split; [now left|]. split; [apply requests_wrote|reflexivity].
  - destruct (subprocess_run (world s)
                (clone_spawn (selected_url r use_ssh)
                   (os_path_join td (name r))
                   (clone_env use_ssh (environ s)))) as [res w'] eqn:Hrun.
    rewrite (clone_repo_fresh _ _ _ _ _ _ Hex Hrun). eexists _, _, [_].
    split; [reflexivity|]. cbn [trace environ].
    split; [apply spawns_after_run|].
    split; [now right|]. split; [apply requests_after_run|reflexivity].
Qed.

Lemma clone_loop_effects (td : string) (use_ssh : bool) (total : nat)
    (repos : list repo) :
  forall (i successful failed : nat) (s : state W),
    exists counts s' l,
      clone_loop td use_ssh total i repos successful failed s
        = (Ret counts, s')
      /\ spawns (trace s') = spawns (trace s) ++ l
      /\ sublist (map argv l) (map (clone_argv td use_ssh) repos)
      /\ Forall (fun c => timeout c = Some 300) l
      /\ requests (trace s') = requests (trace s)
      /\ environ s' = environ s.
Proof.
  induction repos as [|r rest IH]; intros i successful failed s.
  - exists (successful, failed), s, []. cbn. unfold ret.
    rewrite app_nil_r. repeat split; constructor.
  - cbn [clone_loop]. unfold bind at 1, print_end, emit.
    destruct (clone_repo_effects r td use_ssh
                (log (EvWrite
                        ((nl +:+ "[" +:+ str_of_nat i +:+ "/" +:+
                          str_of_nat total +:+ "] ") +:+ "")) s))
      as (b & s1 & l1 & Hclone & Hsp1 & Hl1 & Hrq1 & Henv1).
    unfold bind at 1. rewrite Hclone.
    assert (spawns (trace s1) = spawns (trace s) ++ l1) as Hsp1'.
    { rewrite Hsp1. unfold log; cbn [trace]. rewrite spawns_app. cbn.
      now rewrite app_nil_r. }
    assert (requests (trace s1) = requests (trace s)) as Hrq1'.
    { rewrite Hrq1. unfold log; cbn [trace]. rewrite requests_app. cbn.
      now rewrite app_nil_r. }
    assert (exists counts s' l,
              (if b
               then clone_loop td use_ssh total (S i) rest (S successful) failed
               else clone_loop td use_ssh total (S i) rest successful (S failed))
                s1 = (Ret counts, s')
              /\ spawns (trace s') = spawns (trace s1) ++ l
              /\ sublist (map argv l) (map (clone_argv td use_ssh) rest)
              /\ Forall (fun c => timeout c = Some 300) l
              /\ requests (trace s') = requests (trace s1)
              /\ environ s' = environ s1)
      as (counts & s' & l & Hrun & Hsp & Hsub & Hto & Hrq & Henv).
    { destruct b; apply IH. }
    exists counts, s', (l1 ++ l). split; [exact Hrun|].
    split; [now rewrite Hsp, Hsp1', app_assoc|].
    split.
    { cbn [map]. destruct Hl1 as [-> | ->]; cbn [app map].
      - now apply sublist_cons.
      - apply sublist_skip. exact Hsub. }
    split.
    { apply Forall_app. split; [|exact Hto].
      destruct Hl1 as [-> | ->]; repeat constructor. }
    split; [now rewrite Hrq, Hrq1'|].
    rewrite Henv, Henv1. reflexivity.
Qed.

Lemma print_summary_verdict (total successful failed : nat) (s : state W) :
  exists post,
    print_summary total successful failed s
      = (Ret tt,
         wrote ([line (nl +:+ str_repeat "=" 50); line "SUMMARY";
                 line (str_repeat "=" 50)]
                ++ summary_lines total successful failed ++ [post]) s)
    /\ (failed = 0 ->
        post = line (nl +:+ "🎉 All repositories cloned successfully!"))
    /\ (0 < failed ->
        post = line (nl +:+ "⚠️  " +:+ str_of_nat failed +:+
                     " repositories failed to clone. Check the output above for details.")).
Proof.
  unfold print_summary.
  destruct (Nat.ltb_spec 0 failed) as [Hpos|Hzero]; eexists;
    (split;
     [repeat (unfold bind at 1; rewrite print_wrote; rewrite ?wrote_wrote);
      rewrite print_wrote, wrote_wrote; reflexivity|]);
    split; intros; try reflexivity; lia.
Qed.

Lemma pull_try_run (self : GitHubOrgPuller) (org td : string)
    (use_ssh f a : bool) (fuel : nat) (s0 s1 : state W) (repos : list repo) :
  get_all_repos self org fuel s0 = (Ret repos, s1) ->
  exists results l pre post sf,
    pull_try self org td use_ssh f a fuel s0 = (Ret tt, sf)
    /\ Forall2 (fun r b =>
                  exists si si', clone_repo r td use_ssh si = (Ret b, si'))
         (List.filter (keep f a) repos) results
    /\ spawns (trace sf) = spawns (trace s1) ++ l
    /\ sublist (map argv l)
         (map (clone_argv td use_ssh) (List.filter (keep f a) repos))
    /\ Forall (fun c => timeout c = Some 300) l
    /\ requests (trace sf) = requests (trace s1)
    /\ environ sf = environ s1
    /\ written (trace sf)
       = pre ++ summary_lines (length (List.filter (keep f a) repos))
                  (tally true results) (tally false results) ++ [post]
    /\ (tally false results = 0 ->
        post = line (nl +:+ "🎉 All repositories cloned successfully!"))
    /\ (0 < tally false results ->
        post = line (nl +:+ "⚠️  " +:+ str_of_nat (tally false results) +:+
                     " repositories failed to clone. Check the output above for details.")).
Proof.
  intros Hlist. unfold pull_try, try_except, bind at 1. rewrite Hlist.
  destruct (filter_loop_spec f a repos [] s1) as [lines Hfilter].
  cbn [app] in Hfilter. unfold bind at 1. rewrite Hfilter.
  set (filtered := List.filter (keep f a) repos).
  unfold bind at 1. rewrite print_wrote. rewrite wrote_wrote.
  match goal with
  | |- context [bind (clone_loop _ _ _ _ _ _ _) _ ?st] =>
      destruct (clone_loop_spec td use_ssh (length filtered) filtered 1 0 0 st)
        as (results & s2 & Hloop & Hall);
      destruct (clone_loop_effects td use_ssh (length filtered) filtered 1 0 0 st)
        as (counts & s2' & l & Hloop' & Hsp & Hsub & Hto & Hrq & Henv)
  end.
  rewrite Hloop in Hloop'. inversion Hloop'; subst counts s2'. clear Hloop'.
  unfold bind at 1. rewrite Hloop. cbn [fst snd Nat.add].
  destruct (print_summary_verdict (length filtered) (tally true results)
              (tally false results) s2) as (post & Hsum & Hzero & Hpos).
  rewrite Hsum.
  exists results, l,
    (written (trace s2)
     ++ [line (nl +:+ str_repeat "=" 50); line "SUMMARY";
         line (str_repeat "=" 50)]), post.
  eexists. split; [reflexivity|]. split; [exact Hall|].
  split; [now rewrite spawns_wrote, Hsp, spawns_wrote|].
  split; [exact Hsub|]. split; [exact Hto|].
  split; [now rewrite requests_wrote, Hrq, requests_wrote|].
  split; [exact Henv|].
  split; [|split; [exact Hzero|exact Hpos]].
  unfold wrote at 1. cbn [trace].
  rewrite written_app, written_writes. now rewrite <- app_assoc.
Qed.

Lemma sublist_In {A} (l1 l2 : list A) :
  sublist l1 l2 -> forall x, In x l1 -> In x l2.
Proof.
  induction 1 as [|x l1 l2 _ IH|x l1 l2 _ IH]; intros y Hy; cbn in *.
  - contradiction.
  - destruct Hy as [->|Hy]; auto.
  - auto.
Qed.

(** X7. What a run clones.  When the listing returns, the child
    processes started after it are [git clone] commands for repositories
    that survived the filtering, each with its URL and destination and
    under the timeout of 300 seconds, in the order of the listing and at
    most one per repository.  A fork is never cloned when forks are
    excluded, nor an archived repository when those are; and the run
    sends no further request. *)
Theorem run_clones_only_survivors (self : GitHubOrgPuller) (org td : string)
    (use_ssh include_forks include_archived : bool) (fuel : nat)
    (s0 s1 : state W) (repos : list repo) :
  get_all_repos self org fuel s0 = (Ret repos, s1) ->
  exists l sf,
    pull_try self org td use_ssh include_forks include_archived fuel s0
      = (Ret tt, sf)
    /\ spawns (trace sf) = spawns (trace s1) ++ l
    /\ sublist (map argv l)
         (map (clone_argv td use_ssh)
            (List.filter (keep include_forks include_archived) repos))
    /\ Forall (fun c =>
                 timeout c = Some 300
                 /\ exists r,
                      In r repos
                      /\ argv c = ["git"; "clone";
                                   if use_ssh then ssh_url r else clone_url r;
                                   os_path_join td (name r)]
                      /\ ~ (include_forks = false /\ fork r = true)
                      /\ ~ (include_archived = false /\ archived r = true)) l
    /\ requests (trace sf) = requests (trace s1).
Proof.
  intros Hlist.
  destruct (pull_try_run self org td use_ssh include_forks include_archived
              fuel s0 s1 repos Hlist)
    as (results & l & pre & post & sf & Hrun & _ & Hsp & Hsub & Hto & Hrq & _).
  exists l, sf. split; [exact Hrun|]. split; [exact Hsp|].
  split; [exact Hsub|]. split; [|exact Hrq].
  apply List.Forall_forall. intros c Hc.
  split; [now apply (proj1 (List.Forall_forall _ _) Hto)|].
  assert (In (argv c) (map argv l)) as Hin by now apply in_map.
  apply (sublist_In _ _ Hsub) in Hin.
  apply in_map_iff in Hin as (r & Hr & Hin).
  apply filter_In in Hin as [Hin Hkeep].
  apply keep_iff in Hkeep as [Hf Ha].
  exists r. split; [exact Hin|]. split; [now rewrite <- Hr|]. auto.
Qed.

(** X8. The last line of a run.  When the listing returns, the summary
    ends with the line that says whether everything went well: the
    congratulation exactly when no clone failed, and otherwise the
    warning that names the number of failed clones. *)
Theorem summary_verdict (self : GitHubOrgPuller) (org td : string)
    (use_ssh include_forks include_archived : bool) (fuel : nat)
    (s0 s1 : state W) (repos : list repo) :
  get_all_repos self org fuel s0 = (Ret repos, s1) ->
  exists results pre verdict sf,
    pull_try self org td use_ssh include_forks include_archived fuel s0
      = (Ret tt, sf)
    /\ Forall2 (fun r b =>
                  exists si si', clone_repo r td use_ssh si = (Ret b, si'))
         (List.filter (keep include_forks include_archived) repos) results
    /\ written (trace sf)
       = pre ++ [line ("Failed: " +:+ str_of_nat (tally false results));
                 verdict]
    /\ (tally false results = 0 ->
        verdict = line (nl +:+ "🎉 All repositories cloned successfully!"))
    /\ (0 < tally false results ->
        verdict
        = line (nl +:+ "⚠️  " +:+ str_of_nat (tally false results) +:+
                " repositories failed to clone. Check the output above for details.")).
Proof.
  intros Hlist.
  destruct (pull_try_run self org td use_ssh include_forks include_archived
              fuel s0 s1 repos Hlist)
    as (results & l & pre & post & sf & Hrun & Hall & _ & _ & _ & _ & _
        & Hout & Hzero & Hpos).
  exists results,
    (pre ++ [line ("Total repositories: " +:+
                   str_of_nat (length (List.filter
                                         (keep include_forks include_archived)
                                         repos)));
             line ("Successfully cloned: " +:+ str_of_nat (tally true results))]),
    post, sf.
  split; [exact Hrun|]. split; [exact Hall|].
  split; [|split; [exact Hzero|exact Hpos]].
  rewrite Hout. unfold summary_lines. rewrite <- app_assoc. reflexivity.
Qed.

(* --------------------------------------------------------------------- *)
(** ** An existing destination in the loop and in the summary             *)
(* --------------------------------------------------------------------- *)

Lemma clone_loop_head_exists (r : repo) (td : string) (use_ssh : bool)
    (s : state W) :
  os_path_exists (world s) (os_path_join td (name r)) = true ->
  forall (total i : nat) (rest : list repo) (successful failed : nat),
    exists results sf,
      clone_loop td use_ssh total i (r :: rest) successful failed s
        = (Ret (S successful + tally true results,
                failed + tally false results), sf)
      /\ length results = length rest.
Proof.
  intros Hex total i rest successful failed.
  cbn [clone_loop]. unfold bind at 1, print_end, emit, log.
  unfold bind at 1. rewrite clone_repo_exists by exact Hex.
  match goal with
  | |- context [clone_loop td use_ssh total (S i) rest (S successful) failed ?st] =>
      destruct (clone_loop_spec td use_ssh total rest (S i) (S successful)
                  failed st) as (results & sf & Hrun & Hall)
  end.
  exists results, sf. split; [exact Hrun|].
  symmetry. exact (Forall2_length _ _ _ Hall).
Qed.

(** C3. An existing destination.  If [target_dir/name] exists,
    [clone_repo] returns [True] at once: it starts no child process and
    leaves the world as it is.  It counts as a success: whatever the
    counters are when the cloning loop comes to this repository, the
    loop ends with one more success than the rest of the list
    contributes and with no more failures than the rest contributes; and
    in a run in which it is the first repository to survive the
    filtering, the summary prints it among the successful ones, not
    among the failed ones. *)
Theorem clone_repo_skips_existing (r : repo) (target_dir : string)
    (use_ssh : bool) (s : state W) :
  os_path_exists (world s) (os_path_join target_dir (name r)) = true ->
  exists s',
    clone_repo r target_dir use_ssh s = (Ret true, s')
    /\ spawns (trace s') = spawns (trace s)
    /\ world s' = world s
    /\ (forall total i rest successful failed,
          exists s'',
            clone_loop target_dir use_ssh total i (r :: rest) successful
              failed s
              = clone_loop target_dir use_ssh total (S i) rest
                  (S successful) failed s''
            /\ spawns (trace s'') = spawns (trace s))
    /\ (forall total i rest successful failed,
          exists results sf,
            clone_loop target_dir use_ssh total i (r :: rest) successful
              failed s
              = (Ret (S successful + tally true results,
                      failed + tally false results), sf)
            /\ length results = length rest)
    /\ (forall total i successful failed,
          exists sf,
            clone_loop target_dir use_ssh total i [r] successful failed s
              = (Ret (S successful, failed), sf)
            /\ spawns (trace sf) = spawns (trace s))
    /\ (forall self org include_forks include_archived fuel s0 repos rest,
          get_all_repos self org fuel s0 = (Ret repos, s) ->
          List.filter (keep include_forks include_archived) repos
            = r :: rest ->
          exists results pre post sf,
            pull_try self org target_dir use_ssh include_forks
              include_archived fuel s0 = (Ret tt, sf)
            /\ length results = length rest
            /\ written (trace sf)
               = pre ++ summary_lines (S (length rest))
                          (S (tally true results)) (tally false results)
                        ++ [post]).
Proof.
  intros Hex. eexists. split; [now apply clone_repo_exists|].
  split; [apply spawns_wrote|]. split; [reflexivity|].
  split; [|split; [|split]].
  - intros total i rest successful failed.
    cbn [clone_loop]. unfold bind at 1, print_end, emit, log.
    unfold bind at 1. rewrite clone_repo_exists by exact Hex.
    eexists. split; [reflexivity|].
    rewrite spawns_wrote. cbn [trace]. rewrite spawns_app. cbn.
    now rewrite app_nil_r.
  - now apply clone_loop_head_exists.
  - intros total i successful failed.
    cbn [clone_loop]. unfold bind at 1, print_end, emit, log.
    unfold bind at 1. rewrite clone_repo_exists by exact Hex.
    unfold ret. eexists. split; [reflexivity|].
    rewrite spawns_wrote. cbn [trace]. rewrite spawns_app. cbn.
    now rewrite app_nil_r.
  - intros self org f a fuel s0 repos rest Hlist Hfirst.
    unfold pull_try, try_except, bind at 1. rewrite Hlist.
    destruct (filter_loop_spec f a repos [] s) as [lines Hfilter].
    cbn [app] in Hfilter. rewrite Hfirst in Hfilter.
    unfold bind at 1. rewrite Hfilter.
    unfold bind at 1. rewrite print_wrote. rewrite wrote_wrote.
    match goal with
    | |- context [bind (clone_loop _ _ ?t ?i _ _ _) _ ?st] =>
        destruct (clone_loop_head_exists r target_dir use_ssh st Hex
                    t i rest 0 0) as (results & s2 & Hloop & Hlen)
    end.
    unfold bind at 1. rewrite Hloop. cbn [fst snd Nat.add length].
    destruct (print_summary_spec (S (length rest)) (S (tally true results))
                (tally false results) s2) as [post Hsum].
    rewrite Hsum.
    exists results,
      (written (trace s2)
       ++ [line (nl +:+ str_repeat "=" 50); line "SUMMARY";
           line (str_repeat "=" 50)]), post.
    eexists. split; [reflexivity|]. split; [exact Hlen|].
    unfold wrote. cbn [trace].
    rewrite written_app, written_writes. now rewrite <- app_assoc.
Qed.

(* --------------------------------------------------------------------- *)
(** ** Beyond the claims: before the listing                              *)
(* --------------------------------------------------------------------- *)

Lemma made_dirs_app (t u : list event) :
  made_dirs (t ++ u) = made_dirs t ++ made_dirs u.
Proof. unfold made_dirs. now rewrite flat_map_app. Qed.

Lemma made_dirs_writes (l : list string) : made_dirs (map EvWrite l) = [].
Proof. induction l; simpl; auto. Qed.

(** Reading the parts of a trace that is a concatenation of single events
    and of runs of output. *)
Ltac read_trace :=
  cbn [world environ trace];
  rewrite ?requests_app, ?spawns_app, ?reads_app, ?made_dirs_app,
    ?written_app, ?clone_invocations_app;
  rewrite ?requests_writes, ?spawns_writes, ?reads_writes, ?made_dirs_writes;
  cbn; rewrite ?app_nil_r.

Lemma lower_char_y (c : ascii) :
  lower_char c = "y"%char <-> c = "y"%char \/ c = "Y"%char.
Proof.
  split.
  - destruct c as [[] [] [] [] [] [] [] []]; vm_compute; intros E;
      try discriminate; auto.
  - intros [-> | ->]; reflexivity.
Qed.

Lemma lower_y (x : string) : lower x = "y" <-> x = "y" \/ x = "Y".
Proof.
  destruct x as [|c [|c' x']]; cbn [lower].
  - split; [discriminate|]. intros [E|E]; discriminate.
  - split.
    + intros E. injection E as E. apply lower_char_y in E as [-> | ->]; auto.
    + intros [E|E]; injection E as ->; reflexivity.
  - split; [discriminate|]. intros [E|E]; discriminate.
Qed.

Lemma prelude_makedirs (self : GitHubOrgPuller) (org : string)
    (td : option string) (s : state W) (res : result unit) (w1 : W) :
  os_makedirs (world s) (default_dir org td) = (res, w1) ->
  pull_prelude self org td false s
    = match res with
      | Ok _ =>
          (Ret (Some (default_dir org td)),
           {| world := w1; environ := environ s;
              trace := trace s
                       ++ [EvMakedirs (default_dir org td);
                           EvWrite (line ("Cloning repositories to: " +:+
                                          os_path_abspath w1 (default_dir org td)))] |})
      | Err e =>
          (Raise e,
           {| world := w1; environ := environ s;
              trace := trace s ++ [EvMakedirs (default_dir org td)] |})
      end.
Proof.
  intros Hmk. unfold pull_prelude. fold (default_dir org td).
  unfold_py. cbn [world environ trace]. rewrite Hmk.
  destruct res as [u|e]; cbn [world environ trace]; [|reflexivity].
  now rewrite <- app_assoc.
Qed.

(** X9. Without [--ssh] nothing is probed and nothing is asked: up to
    the listing the run starts no child process, reads nothing from
    standard input and sends no request.  It creates one directory, the
    one given on the command line or else the one named like the
    organization, and goes on with it; if the directory cannot be
    created, the exception of [os.makedirs] ends the function. *)
Theorem https_prelude_is_quiet (self : GitHubOrgPuller) (org : string)
    (td : option string) (s : state W) :
  let d := match td with None => org | Some d => d end in
  let r := pull_prelude self org td false s in
  fst r = match fst (os_makedirs (world s) d) with
          | Ok _ => Ret (Some d)
          | Err e => Raise e
          end
  /\ made_dirs (trace (snd r)) = made_dirs (trace s) ++ [d]
  /\ spawns (trace (snd r)) = spawns (trace s)
  /\ reads (trace (snd r)) = reads (trace s)
  /\ requests (trace (snd r)) = requests (trace s).
Proof.
  cbv zeta. fold (default_dir org td).
  destruct (os_makedirs (world s) (default_dir org td)) as [res w1] eqn:Hmk.
  rewrite (prelude_makedirs self org td s res w1 Hmk).
  destruct res; cbn [fst snd]; repeat split; read_trace;
    try reflexivity; lia.
Qed.

Lemma prelude_ssh (self : GitHubOrgPuller) (org : string)
    (td : option string) (s : state W) (u : unit) (w1 w2 : W)
    (res : result completed) :
  os_makedirs (world s) (default_dir org td) = (Ok u, w1) ->
  subprocess_run w1 probe = (res, w2) ->
  exists s2,
    world s2 = w2 /\ environ s2 = environ s
    /\ requests (trace s2) = requests (trace s)
    /\ spawns (trace s2) = spawns (trace s) ++ [probe]
    /\ reads (trace s2) = reads (trace s)
    /\ pull_prelude self org td true s
       = if probe_ok res then (Ret (Some (default_dir org td)), s2)
         else
           let '(rd, w3) := stdin_readline w2 in
           let s3 := {| world := w3; environ := environ s;
                        trace := trace s2
                                 ++ [EvWrite (line "Warning: SSH issues detected. Consider using HTTPS instead or fix SSH setup.");
                                     EvWrite "Continue anyway? (y/n): ";
                                     EvReadline] |} in
           match rd with
           | Ok ans =>
               (Ret (if negb (String.eqb (lower (strip ans)) "y") then None
                     else Some (default_dir org td)), s3)
           | Err e => (Raise e, s3)
           end.
Proof.
  intros Hmk Hrun. unfold pull_prelude. fold (default_dir org td).
  unfold_py. cbn [world environ trace]. rewrite Hmk. cbn [world environ trace].
  match goal with
  | |- context [check_ssh_agent ?st] =>
      destruct (check_ssh_agent_spec st res w2 Hrun) as [lines Hchk];
      rewrite Hchk
  end.
  cbn [world environ trace].
  change (EvRun probe :: map EvWrite lines)
    with ([EvRun probe] ++ map EvWrite lines).
  exists {| world := w2; environ := environ s;
            trace := trace s
                     ++ [EvMakedirs (default_dir org td);
                         EvWrite (line ("Cloning repositories to: " +:+
                                        os_path_abspath w1 (default_dir org td)));
                         EvWrite (line (nl +:+ "Checking SSH configuration..."));
                         EvRun probe]
                     ++ map EvWrite lines |}.
  split; [reflexivity|]. split; [reflexivity|].
  split; [read_trace; reflexivity|].
  split; [read_trace; reflexivity|].
  split; [read_trace; lia|].
  destruct (probe_ok res); cbn [negb].
  - rewrite <- !app_assoc. reflexivity.
  - cbn [world environ trace].
    destruct (stdin_readline w2) as [[ans|e] w3]; cbn [world environ trace];
      rewrite <- !app_assoc;
      try destruct (negb (String.eqb (lower (strip ans)) "y")); reflexivity.
Qed.

Lemma probe_fails (res : result completed) :
  (forall c, res = Ok c -> returncode c <> 0%Z) -> probe_ok res = false.
Proof.
  intros Hfail. destruct res as [c|e]; [|reflexivity]. cbn.
  apply Z.eqb_neq. now apply Hfail.
Qed.

(** X10. The question after a failed probe.  Over SSH, when the probe of
    the agent does not succeed, the run asks whether to continue and
    reads one line.  It continues exactly when the answer, without the
    white space around it, is [y] or [Y]; every other answer, the empty
    one included, makes [pull_all_repos] return at once. *)
Theorem prompt_decides (self : GitHubOrgPuller) (org : string)
    (td : option string) (s : state W) (u : unit) (w1 w2 w3 : W)
    (res : result completed) (ans : string) :
  os_makedirs (world s) (default_dir org td) = (Ok u, w1) ->
  subprocess_run w1 probe = (res, w2) ->
  (forall c, res = Ok c -> returncode c <> 0%Z) ->
  stdin_readline w2 = (Ok ans, w3) ->
  exists go s',
    pull_prelude self org td true s = (Ret go, s')
    /\ (go = Some (default_dir org td) <->
        strip ans = "y" \/ strip ans = "Y")
    /\ (go = None <-> ~ (strip ans = "y" \/ strip ans = "Y"))
    /\ world s' = w3
    /\ reads (trace s') = S (reads (trace s))
    /\ spawns (trace s') = spawns (trace s) ++ [probe].
Proof.
  intros Hmk Hrun Hfail Hrd.
  destruct (prelude_ssh self org td s u w1 w2 res Hmk Hrun)
    as (s2 & Hw & He & Hrq & Hsp & Hreads & Hpre).
  rewrite (probe_fails res Hfail), Hrd in Hpre. cbv zeta in Hpre.
  rewrite Hpre. eexists _, _. split; [reflexivity|].
  pose proof (lower_y (strip ans)) as Hy.
  destruct (String.eqb_spec (lower (strip ans)) "y") as [Heq|Hne]; cbn [negb].
  - split; [tauto|]. split; [|split; [reflexivity|]].
    + split; [discriminate|]. tauto.
    + split; read_trace; [rewrite Hreads; lia|now rewrite Hsp].
  - split; [|split; [|split; [reflexivity|]]].
    + split; [discriminate|]. tauto.
    + tauto.
    + split; read_trace; [rewrite Hreads; lia|now rewrite Hsp].
Qed.

(** X11. With keys in the agent nothing is asked: when [ssh-add -l] ends
    with exit code 0, the run goes on to the listing without reading
    from standard input. *)
Theorem agent_ok_skips_prompt (self : GitHubOrgPuller) (org : string)
    (td : option string) (s : state W) (u : unit) (w1 w2 : W)
    (c : completed) :
  os_makedirs (world s) (default_dir org td) = (Ok u, w1) ->
  subprocess_run w1 probe = (Ok c, w2) ->
  returncode c = 0%Z ->
  exists s',
    pull_prelude self org td true s = (Ret (Some (default_dir org td)), s')
    /\ world s' = w2
    /\ reads (trace s') = reads (trace s)
    /\ spawns (trace s') = spawns (trace s) ++ [probe].
Proof.
  intros Hmk Hrun Hc.
  destruct (prelude_ssh self org td s u w1 w2 (Ok c) Hmk Hrun)
    as (s2 & Hw & He & Hrq & Hsp & Hreads & Hpre).
  cbn [probe_ok] in Hpre. rewrite Hc in Hpre. cbn in Hpre.
  exists s2. auto.
Qed.

Lemma prelude_makedirs_fails (self : GitHubOrgPuller) (org : string)
    (td : option string) (use_ssh : bool) (s : state W) (e : error) (w1 : W) :
  os_makedirs (world s) (default_dir org td) = (Err e, w1) ->
  pull_prelude self org td use_ssh s
    = (Raise e,
       {| world := w1; environ := environ s;
          trace := trace s ++ [EvMakedirs (default_dir org td)] |}).
Proof.
  intros Hmk. unfold pull_prelude. fold (default_dir org td).
  unfold_py. cbn [world environ trace]. now rewrite Hmk.
Qed.

Lemma main_unfold (a : args) (fuel : nat) (s : state W) :
  exists puller lines,
    init (chosen_token a s) s = (Ret puller, wrote lines s)
    /\ main a fuel s
       = pull_all_repos puller (organization a) (arg_target_dir a) (ssh a)
           (negb (no_forks a)) (negb (no_archived a)) fuel (wrote lines s).
Proof.
  destruct (init_wrote (chosen_token a s) s) as (puller & lines & Hinit).
  exists puller, lines. split; [exact Hinit|].
  unfold main, bind at 1, get_environ. unfold chosen_token in Hinit.
  unfold bind at 1. now rewrite Hinit.
Qed.

(** X12. Declining ends the run in peace.  Over SSH, when the probe of
    the agent does not succeed and the answer to the question, without
    the white space around it, is neither [y] nor [Y], the process ends
    with status 0 without having sent a request or started a
    [git clone]; its only child process was the probe. *)
Theorem declined_run_exits_zero (a : args) (fuel : nat) (s : state W)
    (u : unit) (w1 w2 w3 : W) (res : result completed) (ans : string) :
  ssh a = true ->
  os_makedirs (world s) (default_dir (organization a) (arg_target_dir a))
    = (Ok u, w1) ->
  subprocess_run w1 probe = (res, w2) ->
  (forall c, res = Ok c -> returncode c <> 0%Z) ->
  stdin_readline w2 = (Ok ans, w3) ->
  strip ans <> "y" ->
  strip ans <> "Y" ->
  exists sf,
    main a fuel s = (Ret tt, sf)
    /\ exit_status (fst (main a fuel s)) = Some 0%Z
    /\ requests (trace sf) = requests (trace s)
    /\ spawns (trace sf) = spawns (trace s) ++ [probe]
    /\ clone_invocations (trace sf) = clone_invocations (trace s).
Proof.
  intros Hssh Hmk Hrun Hfail Hrd Hno1 Hno2.
  assert (lower (strip ans) <> "y") as Hno.
  { intros Hy. apply lower_y in Hy as [Hy|Hy]; contradiction. }
  destruct (main_unfold a fuel s) as (puller & lines & _ & Hmain).
  destruct (prelude_ssh puller (organization a) (arg_target_dir a)
              (wrote lines s) u w1 w2 res Hmk Hrun)
    as (s2 & Hw & He & Hrq & Hsp & Hreads & Hpre).
  rewrite (probe_fails res Hfail), Hrd in Hpre. cbv zeta in Hpre.
  apply String.eqb_neq in Hno. rewrite Hno in Hpre. cbn [negb] in Hpre.
  eassert (main a fuel s = _) as Hres.
  { rewrite Hmain, Hssh. unfold pull_all_repos, bind at 1. rewrite Hpre.
    reflexivity. }
  rewrite Hres. eexists. split; [reflexivity|]. split; [reflexivity|].
  rewrite requests_wrote in Hrq. rewrite spawns_wrote in Hsp.
  split; [|split]; read_trace.
  - exact Hrq.
  - exact Hsp.
  - unfold clone_invocations. rewrite Hsp, List.filter_app. cbn.
    now rewrite app_nil_r.
Qed.

(** X13. A target directory that cannot be created is fatal.  The
    exception of [os.makedirs] is raised outside the [try] statement:
    the process ends with status 1 on the uncaught exception, before any
    request, child process or question. *)
Theorem makedirs_failure_is_fatal (a : args) (fuel : nat) (s : state W)
    (e : error) (w1 : W) :
  os_makedirs (world s) (default_dir (organization a) (arg_target_dir a))
    = (Err e, w1) ->
  exists sf,
    main a fuel s = (Raise e, sf)
    /\ exit_status (fst (main a fuel s)) = Some 1%Z
    /\ requests (trace sf) = requests (trace s)
    /\ spawns (trace sf) = spawns (trace s)
    /\ reads (trace sf) = reads (trace s).
Proof.
  intros Hmk.
  destruct (main_unfold a fuel s) as (puller & lines & _ & Hmain).
  eassert (main a fuel s = _) as Hres.
  { rewrite Hmain. unfold pull_all_repos, bind at 1.
    rewrite (prelude_makedirs_fails puller (organization a) (arg_target_dir a)
               (ssh a) (wrote lines s) e w1 Hmk).
    reflexivity. }
  rewrite Hres. eexists. split; [reflexivity|]. split; [reflexivity|].
  unfold wrote. split; [|split]; read_trace; try reflexivity; lia.
Qed.

(** X14. The question needs a terminal.  Over SSH, when the probe of the
    agent does not succeed and reading the answer raises (standard input
    is closed, say), that exception is not caught either: the process
    ends with status 1 without having sent a request or started a
    [git clone]. *)
Theorem prompt_eof_is_fatal (a : args) (fuel : nat) (s : state W)
    (u : unit) (w1 w2 w3 : W) (res : result completed) (e : error) :
  ssh a = true ->
  os_makedirs (world s) (default_dir (organization a) (arg_target_dir a))
    = (Ok u, w1) ->
  subprocess_run w1 probe = (res, w2) ->
  (forall c, res = Ok c -> returncode c <> 0%Z) ->
  stdin_readline w2 = (Err e, w3) ->
  exists sf,
    main a fuel s = (Raise e, sf)
    /\ exit_status (fst (main a fuel s)) = Some 1%Z
    /\ requests (trace sf) = requests (trace s)
    /\ clone_invocations (trace sf) = clone_invocations (trace s).
Proof.
  intros Hssh Hmk Hrun Hfail Hrd.
  destruct (main_unfold a fuel s) as (puller & lines & _ & Hmain).
  destruct (prelude_ssh puller (organization a) (arg_target_dir a)
              (wrote lines s) u w1 w2 res Hmk Hrun)
    as (s2 & Hw & He & Hrq & Hsp & Hreads & Hpre).
  rewrite (probe_fails res Hfail), Hrd in Hpre. cbv zeta in Hpre.
  eassert (main a fuel s = _) as Hres.
  { rewrite Hmain, Hssh. unfold pull_all_repos, bind at 1. rewrite Hpre.
    reflexivity. }
  rewrite Hres. eexists. split; [reflexivity|]. split; [reflexivity|].
  rewrite requests_wrote in Hrq. rewrite spawns_wrote in Hsp.
  split; read_trace.
  - exact Hrq.
  - unfold clone_invocations. rewrite Hsp, List.filter_app. cbn.
    now rewrite app_nil_r.
Qed.

(* --------------------------------------------------------------------- *)
(** ** Beyond the claims: the token                                       *)
(* --------------------------------------------------------------------- *)

Lemma init_headers (tok : option string) (s s' : state W)
    (puller : GitHubOrgPuller) :
  init tok s = (Ret puller, s') ->
  (forall t, tok = Some t -> t <> "" ->
     session_headers puller = token_headers t /\ s' = s)
  /\ (truthy tok = false ->
      session_headers puller = plain_headers
      /\ written (trace s')
         = written (trace s)
           ++ [line "Warning: No GitHub token provided. API rate limits will be lower."]).
Proof.
  unfold init. destruct tok as [t|].
  - destruct (truthy (Some t)) eqn:Ht.
    + unfold ret. intros Hrun. inversion Hrun; subst. split.
      * intros t' Ht' _. inversion Ht'; subst. auto.
      * discriminate.
    + unfold bind at 1. rewrite print_wrote. unfold ret.
      intros Hrun. inversion Hrun; subst. split.
      * intros t' Ht' Hne. inversion Ht'; subst. cbn in Ht.
        apply negb_false_iff, String.eqb_eq in Ht. contradiction.
      * intros _. split; [reflexivity|].
        unfold wrote; cbn [trace]. now rewrite written_app, written_writes.
  - unfold bind at 1. rewrite print_wrote. unfold ret.
    intros Hrun. inversion Hrun; subst. split.
    + discriminate.
    + intros _. split; [reflexivity|].
      unfold wrote; cbn [trace]. now rewrite written_app, written_writes.
Qed.

Lemma prelude_no_request (self : GitHubOrgPuller) (org : string)
    (td : option string) (use_ssh : bool) (s : state W)
    (o : outcome (option string)) (s' : state W) :
  pull_prelude self org td use_ssh s = (o, s') ->
  requests (trace s') = requests (trace s).
Proof.
  unfold pull_prelude, check_ssh_agent. unfold_py. cbn [world environ trace].
  intros Hrun.
  repeat match type of Hrun with
         | context [let (_, _) := ?x in _] => destruct x as [[?|?] ?]
         | context [if ?b then _ else _] => destruct b
         | context [match ?e with ValueError _ => _ | _ => _ end] => destruct e
         | _ => progress cbn [world environ trace negb] in Hrun
         end;
    inversion Hrun; subst; cbn [trace];
    rewrite ?requests_app; cbn; now rewrite ?app_nil_r.
Qed.

Lemma listing_requests (self : GitHubOrgPuller) (org : string)
    (evs : list event) :
  Forall (listing_event self org) evs ->
  Forall (fun rq => exists page, rq = list_request self org page)
    (requests evs).
Proof.
  induction 1 as [|e evs He _ IH]; [constructor|].
  destruct e; cbn in He; try contradiction; cbn; auto.
Qed.

Lemma pull_try_requests (self : GitHubOrgPuller) (org td : string)
    (use_ssh f a : bool) (fuel : nat) (s0 : state W) :
  exists issued,
    requests (trace (snd (pull_try self org td use_ssh f a fuel s0)))
      = requests (trace s0) ++ issued
    /\ Forall (fun rq => exists page, rq = list_request self org page) issued.
Proof.
  destruct (get_all_repos self org fuel s0) as [o1 s1] eqn:Hlist.
  destruct (get_all_repos_events self org fuel s0 o1 s1 Hlist)
    as [(evs & Htr & Hall) _].
  exists (requests evs). split; [|now apply listing_requests].
  assert (requests (trace s1) = requests (trace s0) ++ requests evs) as Hs1
    by now rewrite Htr, requests_app.
  destruct o1 as [repos|e|c|].
  - destruct (pull_try_run self org td use_ssh f a fuel s0 s1 repos Hlist)
      as (results & l & pre & post & sf & Hrun & _ & _ & _ & _ & Hrq & _).
    rewrite Hrun. cbn [snd]. now rewrite Hrq.
  - rewrite (pull_try_fails _ _ _ _ _ _ _ _ _ _ Hlist). cbn [snd].
    now rewrite requests_wrote.
  - unfold pull_try, try_except, bind at 1. now rewrite Hlist.
  - unfold pull_try, try_except, bind at 1. now rewrite Hlist.
Qed.

Lemma pull_all_repos_requests (self : GitHubOrgPuller) (org : string)
    (td : option string) (use_ssh f a : bool) (fuel : nat) (s : state W) :
  exists issued,
    requests (trace (snd (pull_all_repos self org td use_ssh f a fuel s)))
      = requests (trace s) ++ issued
    /\ Forall (fun rq => exists page, rq = list_request self org page) issued.
Proof.
  unfold pull_all_repos, bind at 1.
  destruct (pull_prelude self org td use_ssh s) as [o s0] eqn:Hpre.
  apply prelude_no_request in Hpre.
  destruct o as [[d|]|e|c|]; cbn [snd];
    try (exists []; rewrite app_nil_r; split; [exact Hpre|constructor]).
  destruct (pull_try_requests self org d use_ssh f a fuel s0)
    as (issued & Hrq & Hall).
  exists issued. split; [now rewrite Hrq, Hpre|exact Hall].
Qed.

Lemma truthy_some (o : option string) :
  truthy o = true -> exists t, o = Some t /\ t <> "".
Proof.
  destruct o as [t|]; [|discriminate]. cbn. intros Ht. exists t.
  split; [reflexivity|]. apply String.eqb_neq. now apply negb_true_iff.
Qed.

(** X15. The token of a run.  Every request of a run goes to the
    repository list of the organization named on the command line, asks
    for pages of 100 entries of all types, most recently updated first,
    and is made with the same session headers: those a new session
    starts with, except that [Accept] is the media type of the GitHub
    API and, when there is a token, [Authorization] is [token ...].  A
    non-empty [--token] is the token whatever [GITHUB_TOKEN] is; without
    one (or with an empty one) a non-empty [GITHUB_TOKEN] is; with
    neither the script sets no [Authorization]. *)
Theorem requests_carry_token (a : args) (fuel : nat) (s : state W) :
  exists issued hdrs,
    requests (trace (snd (main a fuel s))) = requests (trace s) ++ issued
    /\ Forall (fun rq =>
                 req_headers rq = hdrs
                 /\ req_url rq
                    = "https://api.github.com/orgs/" +:+ organization a +:+
                      "/repos"
                 /\ q_per_page (req_params rq) = 100
                 /\ q_type (req_params rq) = "all"
                 /\ q_sort (req_params rq) = "updated"
                 /\ q_direction (req_params rq) = "desc") issued
    /\ hdrs !! "accept" = Some "application/vnd.github.v3+json"
    /\ (forall k : string,
          k <> "accept" -> k <> "authorization" ->
          hdrs !! k = requests_default_headers !! k)
    /\ (forall t, token a = Some t -> t <> "" ->
          hdrs !! "authorization" = Some ("token " +:+ t))
    /\ (forall t, truthy (token a) = false ->
          environ s !! "GITHUB_TOKEN" = Some t -> t <> "" ->
          hdrs !! "authorization" = Some ("token " +:+ t))
    /\ (truthy (token a) = false ->
        truthy (environ s !! "GITHUB_TOKEN") = false ->
        hdrs !! "authorization" = requests_default_headers !! "authorization").
Proof.
  destruct (main_unfold a fuel s) as (puller & lines & Hinit & Hmain).
  destruct (pull_all_repos_requests puller (organization a) (arg_target_dir a)
              (ssh a) (negb (no_forks a)) (negb (no_archived a)) fuel
              (wrote lines s)) as (issued & Hrq & Hall).
  destruct (init_headers _ _ _ _ Hinit) as [Htok Hnone].
  exists issued, (session_headers puller).
  split; [now rewrite Hmain, Hrq, requests_wrote|].
  split.
  { eapply List.Forall_impl; [|exact Hall].
    intros rq (page & ->). repeat split; reflexivity. }
  assert ((exists t, chosen_token a s = Some t /\ t <> ""
                     /\ session_headers puller = token_headers t)
          \/ (truthy (chosen_token a s) = false
              /\ session_headers puller = plain_headers)) as Hcases.
  { destruct (truthy (chosen_token a s)) eqn:Htr.
    - left. destruct (truthy_some _ Htr) as (t & Ht & Hne).
      exists t. split; [exact Ht|]. split; [exact Hne|].
      now destruct (Htok t Ht Hne).
    - right. split; [reflexivity|]. now destruct (Hnone eq_refl). }
  unfold chosen_token in Hcases.
  split; [|split; [|split; [|split]]].
  - destruct Hcases as [(t & _ & _ & ->) | (_ & ->)];
      unfold token_headers, plain_headers; apply lookup_insert_eq.
  - intros k Hk1 Hk2.
    destruct Hcases as [(t & _ & _ & ->) | (_ & ->)];
      unfold token_headers, plain_headers;
      rewrite ?lookup_insert_ne by congruence; reflexivity.
  - intros t Ht Hne.
    assert (truthy (token a) = true) as Htr.
    { rewrite Ht. cbn. apply negb_true_iff. now apply String.eqb_neq. }
    rewrite Htr, Ht in Hcases.
    destruct Hcases as [(t' & Ht' & _ & ->) | (Hf & _)].
    + inversion Ht'; subst. unfold token_headers.
      rewrite lookup_insert_ne by congruence. apply lookup_insert_eq.
    + cbn in Hf. apply negb_false_iff, String.eqb_eq in Hf. contradiction.
  - intros t Hfalse Henv Hne. rewrite Hfalse, Henv in Hcases.
    destruct Hcases as [(t' & Ht' & _ & ->) | (Hf & _)].
    + inversion Ht'; subst. unfold token_headers.
      rewrite lookup_insert_ne by congruence. apply lookup_insert_eq.
    + cbn in Hf. apply negb_false_iff, String.eqb_eq in Hf. contradiction.
  - intros Hfalse Henv. rewrite Hfalse in Hcases.
    destruct Hcases as [(t' & Ht' & Hne & _) | (_ & ->)].
    + rewrite Ht' in Henv. cbn in Henv.
      apply negb_false_iff, String.eqb_eq in Henv. contradiction.
    + unfold plain_headers. now rewrite lookup_insert_ne by congruence.
Qed.

End Proofs.

(* ===================================================================== *)
(** * The theorems at work on scripted runs                               *)
(* ===================================================================== *)

Import Mock Examples.

(** The first example of the specification: pages of 100, 100 and 37
    repositories give 237 repositories after 3 requests. *)
Example pages_100_100_37 :
  let '(o, s) := get_all_repos anonymous "org" 10 (start w_237) in
  option_map (@length repo) (match o with Ret l => Some l | _ => None end)
    = Some 237
  /\ map (fun rq => q_page (req_params rq)) (requests (trace s)) = [1; 2; 3].
Proof. vm_compute. split; reflexivity. Qed.

(** The second: pages of 100, 100, 100 and 0 give 300 after 4 requests. *)
Example pages_100_100_100_0 :
  let '(o, s) := get_all_repos anonymous "org" 10 (start w_300) in
  option_map (@length repo) (match o with Ret l => Some l | _ => None end)
    = Some 300
  /\ map (fun rq => q_page (req_params rq)) (requests (trace s))
     = [1; 2; 3; 4].
Proof. vm_compute. split; reflexivity. Qed.

Lemma get_all_repos_paginates_witness :
  exists s',
    get_all_repos anonymous "org" 3 (start w_237)
      = (Ret (concat ([page_of 100; page_of 100] ++ [page_of 37])), s')
    /\ length (concat ([page_of 100; page_of 100] ++ [page_of 37]))
       = total_length ([page_of 100; page_of 100] ++ [page_of 37])
    /\ (exists issued,
          requests (trace s') = requests (trace (start w_237)) ++ issued
          /\ issued = map (list_request anonymous "org") (seq 1 3)
          /\ map (fun rq => q_page (req_params rq)) issued = seq 1 3
          /\ Forall (fun rq => q_per_page (req_params rq) = 100) issued)
    /\ world s' = w_done.
Proof.
  apply (get_all_repos_paginates anonymous "org"
           [page_of 100; page_of 100] (page_of 37) (start w_237) w_done 3).
  - eapply serves_more; [reflexivity|].
    eapply serves_more; [reflexivity|].
    eapply serves_last. reflexivity.
  - repeat constructor; vm_compute; lia.
  - vm_compute. lia.
  - simpl. lia.
Defined.

(** The example of the specification for the filter. *)
Example filter_example (s : state script) :
  fst (filter_loop false false [repo1; repo2; repo3] [] s) = Ret [repo1].
Proof. reflexivity. Qed.

Lemma clone_repo_skips_existing_witness :
  exists results pre post sf,
    pull_try anonymous "org" "/tmp" false true true 5 (start w_cloned)
      = (Ret tt, sf)
    /\ length results = 0
    /\ written (trace sf)
       = pre ++ summary_lines 1 (S (tally true results))
                  (tally false results) ++ [post].
Proof.
  destruct (clone_repo_skips_existing (H:=mock_os) repo1 "/tmp" false
              (snd (get_all_repos (H:=mock_os) anonymous "org" 5
                      (start w_cloned)))
              ltac:(reflexivity))
    as (s' & _ & _ & _ & _ & _ & _ & Hsummary).
  apply (Hsummary anonymous "org" true true 5 (start w_cloned) [repo1] []);
    reflexivity.
Defined.

(** A run over one repository that is already there: nothing is started,
    and the summary counts one success and no failure. *)
Example skipped_counts_as_success :
  let '(o, s) := pull_try anonymous "org" "/tmp" false true true 5
                   (start w_cloned) in
  o = Ret tt
  /\ spawns (trace s) = []
  /\ skipn 10 (written (trace s))
     = summary_lines 1 1 0
       ++ [line (nl +:+ "🎉 All repositories cloned successfully!")].
Proof. vm_compute. repeat split; reflexivity. Qed.


Lemma clone_repo_child_env_witness :
  exists b s' c child_env,
    clone_repo repo1 "dummyorg" true (start w_three) = (Ret b, s')
    /\ spawns (trace s') = spawns (trace (start w_three)) ++ [c]
    /\ env c = Some child_env
    /\ (true = true ->
        child_env
        = <["GIT_SSH_COMMAND" :=
              "ssh -o StrictHostKeyChecking=no -o BatchMode=yes"]>
            (environ (start w_three)))
    /\ (true = false -> child_env = environ (start w_three))
    /\ (forall k : string,
          k <> "GIT_SSH_COMMAND" ->
          child_env !! k = environ (start w_three) !! k)
    /\ environ s' = environ (start w_three).
Proof.
  apply (clone_repo_child_env repo1 "dummyorg" true (start w_three)).
  reflexivity.
Defined.

(** The environment [git] is started with over SSH and over HTTPS, in a
    parent environment of [PATH] and [HOME]. *)
Example child_env_example :
  map env (spawns (trace (snd (clone_repo repo1 "dummyorg" true
                                 (start w_three)))))
    = [Some (<["GIT_SSH_COMMAND" :=
                 "ssh -o StrictHostKeyChecking=no -o BatchMode=yes"]>
               (<["PATH" := "/usr/bin"]> (<["HOME" := "/home/u"]> ∅)))]
  /\ map env (spawns (trace (snd (clone_repo repo1 "dummyorg" false
                                    (start w_three)))))
     = [Some (<["PATH" := "/usr/bin"]> (<["HOME" := "/home/u"]> ∅))].
Proof. split; vm_compute; reflexivity. Qed.



(** Without [git] every clone fails, and the process still ends with
    status 0. *)
Lemma client_missing_exit_zero :
  child w_missing = missing
  /\ exit_status (fst (main args_plain 5 (start w_missing))) = Some 0%Z
  /\ ~ (exists c, exit_status (fst (main args_plain 5 (start w_missing)))
                  = Some c /\ c <> 0%Z)
  /\ existsb (String.eqb (line "❌ Git is not installed or not in PATH"))
       (written (trace (snd (main args_plain 5 (start w_missing))))) = true.
Proof.
  split; [reflexivity|]. split; [reflexivity|]. split; [|reflexivity].
  intros (c & Hc & Hne). vm_compute in Hc. congruence.
Qed.

Lemma exit_status_of_run_witness :
  exit_status (fst (main args_plain 5 (start w_missing))) = Some 0%Z
  /\ exit_status (fst (main args_plain 5 (start w_404))) = Some 1%Z
  /\ exists s3,
       clone_repo repo1 "dummyorg" false (start w_missing) = (Ret false, s3)
       /\ written (trace s3)
          = written (trace (start w_missing))
            ++ [line ("📦 Cloning " +:+ name repo1 +:+ "...");
                line "❌ Git is not installed or not in PATH"].
Proof.
  split; [|split].
  - destruct (exit_status_of_run (H:=mock_os) args_plain 5 (start w_missing)
                (after_init args_plain (start w_missing))
                (after_prelude args_plain (start w_missing))
                anonymous "dummyorg" ltac:(reflexivity) ltac:(reflexivity)) as (Hok & _).
    eapply Hok. reflexivity.
  - destruct (exit_status_of_run (H:=mock_os) args_plain 5 (start w_404)
                (after_init args_plain (start w_404))
                (after_prelude args_plain (start w_404))
                anonymous "dummyorg" ltac:(reflexivity) ltac:(reflexivity)) as (_ & Hfail & _).
    eapply Hfail. reflexivity.
  - destruct (exit_status_of_run (H:=mock_os) args_plain 5 (start w_missing)
                (after_init args_plain (start w_missing))
                (after_prelude args_plain (start w_missing))
                anonymous "dummyorg" ltac:(reflexivity) ltac:(reflexivity)) as (_ & _ & Hmiss).
    apply (Hmiss repo1 (start w_missing)
             "[Errno 2] No such file or directory: 'git'" w_missing);
      reflexivity.
Defined.

(** Over SSH, with "Permission denied" in the error output of [git], the
    report consists of the two lines of guidance; the error output itself
    is not part of anything that is written. *)
Lemma permission_denied_drops_error_output :
  subprocess_run w_denied
    (clone_spawn (ssh_url repo1) "/tmp/repo1"
       (clone_env true (environ (start w_denied))))
    = (Ok {| returncode := 128; stdout := ""; stderr := denied |}, w_denied)
  /\ fst (clone_repo repo1 "/tmp" true (start w_denied)) = Ret false
  /\ written (trace (snd (clone_repo repo1 "/tmp" true (start w_denied))))
     = [line "📦 Cloning repo1...";
        line "❌ SSH authentication failed for repo1. Make sure ssh-agent is running and key is added.";
        line "   Try: ssh-add ~/.ssh/id_ed25519"]
  /\ existsb (contains denied)
       (written (trace (snd (clone_repo repo1 "/tmp" true (start w_denied)))))
     = false.
Proof. repeat split; reflexivity. Qed.

Lemma clone_repo_outcomes_witness :
  (exists b report s',
     clone_repo repo1 "/tmp" true (start w_denied) = (Ret b, s')
     /\ written (trace s')
        = written (trace (start w_denied))
          ++ line ("📦 Cloning " +:+ name repo1 +:+ "...") :: report
     /\ b = false
     /\ report
        = [line ("❌ SSH authentication failed for " +:+ name repo1 +:+
                 ". Make sure ssh-agent is running and key is added.");
           line "   Try: ssh-add ~/.ssh/id_ed25519"])
  /\ (exists b report s',
        clone_repo repo1 "/tmp" false (start w_noisy) = (Ret b, s')
        /\ b = false
        /\ report
           = [line "❌ Failed to clone repo1: fatal: repository not found"]).
Proof.
  split.
  - destruct (clone_repo_outcomes (H:=mock_os) repo1 "/tmp" true (start w_denied)
                (Ok {| returncode := 128; stdout := ""; stderr := denied |})
                w_denied ltac:(reflexivity) ltac:(reflexivity))
      as (b & report & s' & Hrun & Hout & _ & _ & Hssh & _).
    destruct (Hssh _ eq_refl ltac:(discriminate) eq_refl eq_refl) as [Hb Hr].
    exists b, report, s'. auto.
  - destruct (clone_repo_outcomes (H:=mock_os) repo1 "/tmp" false (start w_noisy)
                (Ok {| returncode := 128; stdout := ""; stderr := noisy |})
                w_noisy ltac:(reflexivity) ltac:(reflexivity))
      as (b & report & s' & Hrun & Hout & _ & Hplain & _).
    destruct (Hplain _ eq_refl ltac:(discriminate) (or_introl eq_refl))
      as [Hb Hr].
    exists b, report, s'. split; [exact Hrun|]. split; [exact Hb|].
    rewrite Hr. reflexivity.
Defined.

(** White space is stripped as [str.strip] does, the white space outside
    ASCII included; U+200B, which is no white space, stays. *)
Example strip_examples :
  strip noisy = "fatal: repository not found"
  /\ strip (nbsp +:+ "y" +:+ nbsp) = "y"
  /\ strip (String (ascii_of_nat 227) (String (ascii_of_nat 128)
              (String (ascii_of_nat 128) " Y"))) = "Y"
  /\ strip (String (ascii_of_nat 226) (String (ascii_of_nat 128)
              (String (ascii_of_nat 139) "y")))
     = String (ascii_of_nat 226) (String (ascii_of_nat 128)
         (String (ascii_of_nat 139) "y")).
Proof. repeat split; reflexivity. Qed.

Lemma listing_failure_aborts_witness :
  exists sf,
    main args_plain 5 (start w_404) = (Exit 1, sf)
    /\ written (trace sf)
       = written (trace (snd (get_all_repos anonymous "dummyorg" 5
                                (after_prelude args_plain (start w_404)))))
         ++ [line ("❌ Error: " +:+
                   "Organization 'dummyorg' not found or not accessible")]
    /\ spawns (trace sf)
       = spawns (trace (after_prelude args_plain (start w_404)))
    /\ clone_invocations (trace sf) = clone_invocations (trace (start w_404)).
Proof.
  apply (listing_failure_aborts args_plain 5 (start w_404)
           (after_init args_plain (start w_404))
           (after_prelude args_plain (start w_404))
           (snd (get_all_repos anonymous "dummyorg" 5
                   (after_prelude args_plain (start w_404))))
           anonymous "dummyorg"
           (ValueError "Organization 'dummyorg' not found or not accessible"));
    reflexivity.
Defined.

(** The end-to-end example of the specification: of three repositories,
    the second a fork and the third archived, a run without forks and
    archived repositories clones the first only and reports a total of 1,
    1 success and 0 failures. *)
Example summary_three_repos :
  let '(o, s) := main args_filtered 5 (start w_three) in
  o = Ret tt
  /\ map argv (spawns (trace s))
     = [["git"; "clone"; "https://github.com/org/repo1.git"; "dummyorg/repo1"]]
  /\ skipn 15 (written (trace s))
     = summary_lines 1 1 0
       ++ [line (nl +:+ "🎉 All repositories cloned successfully!")].
Proof. vm_compute. repeat split; reflexivity. Qed.

Lemma summary_counts_witness :
  exists results pre post sf,
    main args_filtered 5 (start w_three) = (Ret tt, sf)
    /\ Forall2 (fun r b =>
                  exists si si' : state script,
                    clone_repo r "dummyorg" false si = (Ret b, si'))
         (surviving args_filtered [repo1; repo2; repo3]) results
    /\ length results = length (surviving args_filtered [repo1; repo2; repo3])
    /\ written (trace sf)
       = pre ++ summary_lines
                  (length (surviving args_filtered [repo1; repo2; repo3]))
                  (tally true results) (tally false results) ++ [post]
    /\ tally true results + tally false results
       = length (surviving args_filtered [repo1; repo2; repo3])
    /\ (Forall (eq true) results ->
        tally true results
        = length (surviving args_filtered [repo1; repo2; repo3])
        /\ tally false results = 0).
Proof.
  apply (summary_counts args_filtered 5 (start w_three)
           (after_init args_filtered (start w_three))
           (after_prelude args_filtered (start w_three))
           (snd (get_all_repos anonymous "dummyorg" 5
                   (after_prelude args_filtered (start w_three))))
           anonymous "dummyorg" [repo1; repo2; repo3]);
    reflexivity.
Defined.

(* --------------------------------------------------------------------- *)
(** ** Beyond the claims, on scripted runs                                *)
(* --------------------------------------------------------------------- *)

Lemma listing_pauses_between_requests_witness :
  net_events (trace (snd (get_all_repos anonymous "org" 3 (start w_237))))
    = net_events (trace (start w_237)) ++ paced anonymous "org" 1 2.
Proof.
  apply (listing_pauses_between_requests (H:=mock_os) anonymous "org"
           [page_of 100; page_of 100] (page_of 37) (start w_237) w_done 3).
  - eapply serves_more; [reflexivity|].
    eapply serves_more; [reflexivity|].
    eapply serves_last. reflexivity.
  - repeat constructor; vm_compute; lia.
  - vm_compute. lia.
  - simpl. lia.
Defined.

Lemma listing_needs_a_short_page_witness :
  fst (get_all_repos anonymous "org" 2 (start w_full2)) = OutOfFuel.
Proof.
  apply (listing_needs_a_short_page (H:=mock_os) anonymous "org"
           [page_of 100; page_of 100] (start w_full2) w_done 2).
  - eapply serves_full_cons; [reflexivity|].
    eapply serves_full_cons; [reflexivity|].
    apply serves_full_nil.
  - repeat constructor; vm_compute; lia.
  - simpl. lia.
Defined.

Lemma listing_error_discards_pages_witness :
  exists s',
    get_all_repos anonymous "org" 5 (start w_broken)
      = (Raise (OtherError "Connection reset by peer"), s')
    /\ world s' = w_done
    /\ requests (trace s')
       = requests (trace (start w_broken))
         ++ map (list_request anonymous "org") (seq 1 2).
Proof.
  apply (listing_error_discards_pages (H:=mock_os) anonymous "org"
           [page_of 100] (start w_broken)
           (scripted [Err (OtherError "Connection reset by peer")] []
              (exits 0 ""))
           w_done (OtherError "Connection reset by peer") 5).
  - eapply serves_full_cons; [reflexivity|]. apply serves_full_nil.
  - repeat constructor; vm_compute; lia.
  - reflexivity.
  - simpl. lia.
Defined.

Lemma run_clones_only_survivors_witness :
  exists l sf,
    pull_try anonymous "dummyorg" "dummyorg" false false false 5
      (start w_three) = (Ret tt, sf)
    /\ sublist (map argv l) [clone_argv "dummyorg" false repo1].
Proof.
  destruct (run_clones_only_survivors (H:=mock_os) anonymous "dummyorg"
              "dummyorg" false false false 5 (start w_three)
              (snd (get_all_repos (H:=mock_os) anonymous "dummyorg" 5
                      (start w_three)))
              [repo1; repo2; repo3] ltac:(reflexivity))
    as (l & sf & Hrun & _ & Hsub & _).
  exists l, sf. split; [exact Hrun|exact Hsub].
Defined.

Lemma summary_verdict_witness :
  exists results pre verdict sf,
    pull_try anonymous "dummyorg" "dummyorg" false true true 5
      (start w_denied) = (Ret tt, sf)
    /\ Forall2 (fun r b =>
                  exists si si' : state script,
                    clone_repo r "dummyorg" false si = (Ret b, si'))
         (List.filter (keep true true) [repo1]) results
    /\ written (trace sf)
       = pre ++ [line ("Failed: " +:+ str_of_nat (tally false results));
                 verdict]
    /\ (tally false results = 0 ->
        verdict = line (nl +:+ "🎉 All repositories cloned successfully!"))
    /\ (0 < tally false results ->
        verdict
        = line (nl +:+ "⚠️  " +:+ str_of_nat (tally false results) +:+
                " repositories failed to clone. Check the output above for details.")).
Proof.
  apply (summary_verdict (H:=mock_os) anonymous "dummyorg" "dummyorg"
           false true true 5 (start w_denied)
           (snd (get_all_repos (H:=mock_os) anonymous "dummyorg" 5
                   (start w_denied)))
           [repo1]).
  reflexivity.
Defined.

(** The last lines of a run with one failed clone. *)
Example verdict_after_a_failure :
  skipn 15 (written (trace (snd (main args_plain 5 (start w_denied)))))
    = [line "Failed: 1";
       line (nl +:+ "⚠️  1 repositories failed to clone. Check the output above for details.")].
Proof. vm_compute. reflexivity. Qed.

(** The answer [Y] counts as yes with white space around it, the
    no-break space included. *)
Lemma prompt_decides_witness :
  fst (pull_prelude anonymous "dummyorg" None true
         (start (w_no_keys [" " +:+ nbsp +:+ "Y" +:+ nbsp])))
    = Ret (Some "dummyorg").
Proof.
  destruct (prompt_decides (H:=mock_os) anonymous "dummyorg" None
              (start (w_no_keys [" " +:+ nbsp +:+ "Y" +:+ nbsp])) tt
              (made (w_no_keys [" " +:+ nbsp +:+ "Y" +:+ nbsp]))
              (made (w_no_keys [" " +:+ nbsp +:+ "Y" +:+ nbsp]))
              (made (w_no_keys [])) (agent_empty probe)
              (" " +:+ nbsp +:+ "Y" +:+ nbsp)
              ltac:(reflexivity) ltac:(reflexivity)
              ltac:(intros c Hc; inversion Hc; discriminate)
              ltac:(reflexivity))
    as (go & s' & Hrun & Hyes & _).
  rewrite Hrun. cbn [fst]. f_equal. apply Hyes. right. reflexivity.
Defined.

Lemma agent_ok_skips_prompt_witness :
  exists s',
    pull_prelude anonymous "dummyorg" None true (start w_three)
      = (Ret (Some (default_dir "dummyorg" None)), s')
    /\ world s' = made w_three
    /\ reads (trace s') = reads (trace (start w_three))
    /\ spawns (trace s') = spawns (trace (start w_three)) ++ [probe].
Proof.
  apply (agent_ok_skips_prompt (H:=mock_os) anonymous "dummyorg" None
           (start w_three) tt (made w_three) (made w_three)
           {| returncode := 0; stdout := ""; stderr := "" |});
    reflexivity.
Defined.

Lemma declined_run_exits_zero_witness :
  exit_status (fst (main args_ssh 5 (start (w_no_keys [nbsp +:+ "no "]))))
    = Some 0%Z
  /\ requests (trace (snd (main args_ssh 5
                             (start (w_no_keys [nbsp +:+ "no "]))))) = [].
Proof.
  destruct (declined_run_exits_zero (H:=mock_os) args_ssh 5
              (start (w_no_keys [nbsp +:+ "no "])) tt
              (made (w_no_keys [nbsp +:+ "no "]))
              (made (w_no_keys [nbsp +:+ "no "]))
              (made (w_no_keys [])) (agent_empty probe) (nbsp +:+ "no ")
              ltac:(reflexivity) ltac:(reflexivity) ltac:(reflexivity)
              ltac:(intros c Hc; inversion Hc; discriminate)
              ltac:(reflexivity) ltac:(discriminate) ltac:(discriminate))
    as (sf & Hrun & Hexit & Hrq & _).
  split; [exact Hexit|]. rewrite Hrun. exact Hrq.
Defined.

Lemma makedirs_failure_is_fatal_witness :
  exit_status (fst (main (H:=ReadOnly.readonly_os) args_plain 5
                      (ReadOnly.start (ReadOnly.Disk w_three))))
    = Some 1%Z.
Proof.
  destruct (makedirs_failure_is_fatal (H:=ReadOnly.readonly_os) args_plain 5
              (ReadOnly.start (ReadOnly.Disk w_three))
              (OtherError "[Errno 13] Permission denied: 'dummyorg'")
              (ReadOnly.Disk w_three) ltac:(reflexivity))
    as (sf & _ & Hexit & _).
  exact Hexit.
Defined.

Lemma prompt_eof_is_fatal_witness :
  exit_status (fst (main args_ssh 5 (start (w_no_keys [])))) = Some 1%Z.
Proof.
  destruct (prompt_eof_is_fatal (H:=mock_os) args_ssh 5
              (start (w_no_keys [])) tt
              (made (w_no_keys [])) (made (w_no_keys []))
              (made (w_no_keys [])) (agent_empty probe)
              (OtherError "EOF when reading a line")
              ltac:(reflexivity) ltac:(reflexivity) ltac:(reflexivity)
              ltac:(intros c Hc; inversion Hc; discriminate)
              ltac:(reflexivity))
    as (sf & _ & Hexit & _).
  exact Hexit.
Defined.

Lemma requests_carry_token_witness :
  exists issued,
    requests (trace (snd (main args_ssh 5 (start w_three)))) = issued
    /\ Forall (fun rq =>
                 req_headers rq !! "authorization" = Some "token tok"
                 /\ req_headers rq !! "accept"
                    = Some "application/vnd.github.v3+json"
                 /\ req_headers rq !! "user-agent"
                    = Some "python-requests/2.31.0") issued.
Proof.
  destruct (requests_carry_token (H:=mock_os) args_ssh 5 (start w_three))
    as (issued & hdrs & Hrq & Hall & Hacc & Hother & Htok & _).
  exists issued. split; [exact Hrq|].
  eapply List.Forall_impl; [|exact Hall]. intros rq (-> & _).
  split; [exact (Htok "tok" eq_refl ltac:(discriminate))|].
  split; [exact Hacc|].
  rewrite Hother by discriminate. reflexivity.
Defined.
